(** * The DoS detection engine of [DOS tester/firewall.py]

    A shallow embedding of class [DoSDetector]: the per-source sliding
    window, the signature classifier, the threshold chain, the alert
    manager with its bounded history, the maintenance sweep and the
    unblock-on-stop loop.

    Modelling conventions.
    - Python [int] is [Z]; [//] is [Z.div] (floor division, as in Python for
      the positive divisors 2, 3, 4, 5 used here).
    - Clock readings ([time.time()], Python floats) are taken as [Z] ticks:
      the code only subtracts and compares them.  Each function that reads
      the clock receives the reading as an argument.
    - [defaultdict] is a [gmap] together with [dd_get], which inserts the
      default on a read of a missing key, as [__missing__] does.
    - [set] is a [gset]; [deque(maxlen=100)] is a list, oldest first.
    - Calls that leave the process ([subprocess.Popen] with a [netsh]
      command, [requests.post]) are recorded in a list of [Call]s; whether a
      [netsh] command succeeds is given by an oracle.  Logging is left out. *)

From Stdlib Require Import ZArith String Ascii List.
From stdpp Require Import gmap strings list fin_maps pretty sorting.

Open Scope Z_scope.

(** ** Packets, as far as the detector looks into them *)

(** The fields of the scapy [TCP] layer that are read. *)
Record TCPLayer := mkTCP {
  tcp_flags : Z;
  tcp_dport : Z
}.

(** A queued packet: [_packet_handler] only queues packets with an [IP]
    layer, so [ip_src] is always there.  [tcp_layer] is [packet[TCP]] when
    [TCP in packet]; [has_icmp] is [ICMP in packet]; [raw_load] is
    [packet[Raw].load] (bytes) when [Raw in packet]. *)
Record Packet := mkPacket {
  ip_src : string;
  tcp_layer : option TCPLayer;
  has_icmp : bool;
  raw_load : option string
}.

(** ** Alerts and calls to the outside *)

Inductive AttackType := SynFlood | HttpFlood | IcmpFlood | GeneralDoS.

Global Instance AttackType_eq_dec : EqDecision AttackType.
Proof. solve_decision. Defined.

(** The string literal the code uses for each attack type. *)
Definition attack_label (a : AttackType) : string :=
  match a with
  | SynFlood => "SYN flood"
  | HttpFlood => "HTTP flood"
  | IcmpFlood => "ICMP flood"
  | GeneralDoS => "General DoS"
  end.

(** The dict built in [_trigger_alert]. *)
Record Alert := mkAlert {
  timestamp : Z;
  src_ip : string;
  packet_count : Z;
  attack_type : AttackType
}.

(** The JSON body of [_report_to_api] ([additionalInfo], a formatted wall
    clock time, is left out). *)
Record Report := mkReport {
  sourceIP : string;
  targetService : string;
  attackType : string;
  trafficVolume : Z;
  duration : Z
}.

Inductive Call :=
| NetshAddRule (ip : string)
| NetshDeleteRule (ip : string)
| PostReport (url : string) (body : Report).

(** ** The detector object *)

Record DoSDetector := mkDetector {
  threshold : Z;
  time_window : Z;
  block_ips : bool;
  api_url : option string;
  packet_counts : gmap string Z;
  packet_timestamps : gmap string (list Z);
  syn_flood_tracking : gmap string Z;
  http_flood_tracking : gmap string Z;
  icmp_flood_tracking : gmap string Z;
  blocked_ips : gset string;
  running : bool;
  alert_history : list Alert
}.

(** [DoSDetector.__init__]. *)
Definition init (thr win : Z) (blk : bool) (api : option string) : DoSDetector :=
  mkDetector thr win blk api ∅ ∅ ∅ ∅ ∅ ∅ true [].

Definition set_packet_counts (m : gmap string Z) (d : DoSDetector) : DoSDetector :=
  mkDetector (threshold d) (time_window d) (block_ips d) (api_url d)
    m (packet_timestamps d) (syn_flood_tracking d) (http_flood_tracking d)
    (icmp_flood_tracking d) (blocked_ips d) (running d) (alert_history d).

Definition set_packet_timestamps (m : gmap string (list Z)) (d : DoSDetector) : DoSDetector :=
  mkDetector (threshold d) (time_window d) (block_ips d) (api_url d)
    (packet_counts d) m (syn_flood_tracking d) (http_flood_tracking d)
    (icmp_flood_tracking d) (blocked_ips d) (running d) (alert_history d).

Definition set_syn_flood_tracking (m : gmap string Z) (d : DoSDetector) : DoSDetector :=
  mkDetector (threshold d) (time_window d) (block_ips d) (api_url d)
    (packet_counts d) (packet_timestamps d) m (http_flood_tracking d)
    (icmp_flood_tracking d) (blocked_ips d) (running d) (alert_history d).

Definition set_http_flood_tracking (m : gmap string Z) (d : DoSDetector) : DoSDetector :=
  mkDetector (threshold d) (time_window d) (block_ips d) (api_url d)
    (packet_counts d) (packet_timestamps d) (syn_flood_tracking d) m
    (icmp_flood_tracking d) (blocked_ips d) (running d) (alert_history d).

Definition set_icmp_flood_tracking (m : gmap string Z) (d : DoSDetector) : DoSDetector :=
  mkDetector (threshold d) (time_window d) (block_ips d) (api_url d)
    (packet_counts d) (packet_timestamps d) (syn_flood_tracking d)
    (http_flood_tracking d) m (blocked_ips d) (running d) (alert_history d).

Definition set_blocked_ips (s : gset string) (d : DoSDetector) : DoSDetector :=
  mkDetector (threshold d) (time_window d) (block_ips d) (api_url d)
    (packet_counts d) (packet_timestamps d) (syn_flood_tracking d)
    (http_flood_tracking d) (icmp_flood_tracking d) s (running d) (alert_history d).

Definition set_running (b : bool) (d : DoSDetector) : DoSDetector :=
  mkDetector (threshold d) (time_window d) (block_ips d) (api_url d)
    (packet_counts d) (packet_timestamps d) (syn_flood_tracking d)
    (http_flood_tracking d) (icmp_flood_tracking d) (blocked_ips d) b (alert_history d).

Definition set_alert_history (h : list Alert) (d : DoSDetector) : DoSDetector :=
  mkDetector (threshold d) (time_window d) (block_ips d) (api_url d)
    (packet_counts d) (packet_timestamps d) (syn_flood_tracking d)
    (http_flood_tracking d) (icmp_flood_tracking d) (blocked_ips d) (running d) h.

(** ** [defaultdict] *)

(** [d[k]] on a [defaultdict] whose factory yields [dflt]: the value, and
    the dict with [k] bound afterwards. *)
Definition dd_get {V} (dflt : V) (m : gmap string V) (k : string) : V * gmap string V :=
  match m !! k with
  | Some v => (v, m)
  | None => (dflt, <[k := dflt]> m)
  end.

(** [d[k] += 1] on a [defaultdict(int)]. *)
Definition dd_incr (m : gmap string Z) (k : string) : gmap string Z :=
  let '(v, m') := dd_get 0 m k in <[k := v + 1]> m'.

(** [d[k].append(x)] on a [defaultdict(list)]. *)
Definition dd_append (m : gmap string (list Z)) (k : string) (x : Z) : gmap string (list Z) :=
  let '(l, m') := dd_get [] m k in <[k := l ++ [x]]> m'.

(** ** [_clean_old_timestamps] *)

Definition _clean_old_timestamps (d : DoSDetector) (src : string) (current_time : Z)
  : DoSDetector :=
  match packet_timestamps d !! src with
  | Some l =>
      set_packet_timestamps
        (<[src := filter (λ ts, current_time - ts ≤ time_window d) l]> (packet_timestamps d)) d
  | None => d
  end.

(** ** [str(packet[Raw].load)] and the [in] test on strings *)

Definition squote : ascii := ascii_of_N 39.
Definition dquote : ascii := ascii_of_N 34.
Definition backslash : ascii := ascii_of_N 92.

Fixpoint mem_char (c : ascii) (s : string) : bool :=
  match s with
  | EmptyString => false
  | String c' s' => Ascii.eqb c c' || mem_char c s'
  end.

Definition hex_digit (n : N) : ascii :=
  match String.get (N.to_nat n) "0123456789abcdef" with
  | Some c => c
  | None => "0"%char
  end.

(** One byte of the [repr] of a [bytes] object. *)
Definition repr_byte (quote c : ascii) : string :=
  let n := N_of_ascii c in
  if Ascii.eqb c quote || Ascii.eqb c backslash then String backslash (String c EmptyString)
  else if (n =? 9)%N then String backslash "t"
  else if (n =? 10)%N then String backslash "n"
  else if (n =? 13)%N then String backslash "r"
  else if (n <? 32)%N || (127 <=? n)%N then
    String backslash (String "x" (String (hex_digit (n / 16)) (String (hex_digit (n mod 16)) EmptyString)))
  else String c EmptyString.

Fixpoint repr_body (quote : ascii) (s : string) : string :=
  match s with
  | EmptyString => EmptyString
  | String c s' => String.append (repr_byte quote c) (repr_body quote s')
  end.

(** [str(b)] for [b : bytes] in Python 3: the [b'...'] form. *)
Definition bytes_str (b : string) : string :=
  let quote := if mem_char squote b && negb (mem_char dquote b) then dquote else squote in
  String "b" (String quote (String.append (repr_body quote b) (String quote EmptyString))).

(** [needle in hay] on Python strings. *)
Fixpoint py_in (needle hay : string) : bool :=
  String.prefix needle hay ||
  match hay with
  | EmptyString => false
  | String _ hay' => py_in needle hay'
  end.

(** ** [_check_attack_signatures] *)

(** [TCP in packet and packet[TCP].flags & 0x02 and not packet[TCP].flags & 0x10] *)
Definition syn_signature (p : Packet) : bool :=
  match tcp_layer p with
  | Some t => negb (Z.land (tcp_flags t) 2 =? 0) && (Z.land (tcp_flags t) 16 =? 0)
  | None => false
  end.

(** The second [if] with the nested marker test. *)
Definition http_signature (p : Packet) : bool :=
  match tcp_layer p, raw_load p with
  | Some t, Some load =>
      ((tcp_dport t =? 80) || (tcp_dport t =? 443)) &&
      (let payload := bytes_str load in
       py_in "GET" payload || py_in "POST" payload || py_in "HTTP" payload)
  | _, _ => false
  end.

(** [ICMP in packet] *)
Definition icmp_signature (p : Packet) : bool := has_icmp p.

(** Three [if] statements in sequence, none of them an [elif]. *)
Definition _check_attack_signatures (d : DoSDetector) (p : Packet) (src : string) : DoSDetector :=
  let d1 := if syn_signature p
            then set_syn_flood_tracking (dd_incr (syn_flood_tracking d) src) d else d in
  let d2 := if http_signature p
            then set_http_flood_tracking (dd_incr (http_flood_tracking d1) src) d1 else d1 in
  if icmp_signature p
  then set_icmp_flood_tracking (dd_incr (icmp_flood_tracking d2) src) d2 else d2.

(** ** [_determine_attack_type] *)

(** Python's [max(iterable, key=...)]: the running maximum is replaced only
    by a strictly greater key, so the first maximal item is returned. *)
Fixpoint py_max_from {A} (key : A → Z) (best : A) (l : list A) : A :=
  match l with
  | [] => best
  | x :: l' => py_max_from key (if key best <? key x then x else best) l'
  end.

(** The items of the dict literal [attack_types], in insertion order. *)
Definition attack_types (s h i : Z) : list (AttackType * Z) :=
  [(SynFlood, s); (HttpFlood, h); (IcmpFlood, i)].

Definition max_type (s h i : Z) : AttackType * Z :=
  py_max_from snd (SynFlood, s) (tail (attack_types s h i)).

(** Reads the three counters (binding missing ones to 0) and returns the label. *)
Definition _determine_attack_type (d : DoSDetector) (src : string) : AttackType * DoSDetector :=
  let '(s, ms) := dd_get 0 (syn_flood_tracking d) src in
  let '(h, mh) := dd_get 0 (http_flood_tracking d) src in
  let '(i, mi) := dd_get 0 (icmp_flood_tracking d) src in
  let d' := set_icmp_flood_tracking mi
              (set_http_flood_tracking mh (set_syn_flood_tracking ms d)) in
  let mt := max_type s h i in
  if threshold d / 5 <? snd mt then (fst mt, d') else (GeneralDoS, d').

(** ** The alert history: [deque(maxlen=100)] *)

Definition HISTORY_MAXLEN : nat := 100.

(** [deque.append] with a [maxlen]: when full, the leftmost item goes. *)
Definition deque_append {A} (maxlen : nat) (q : list A) (x : A) : list A :=
  let q' := q ++ [x] in
  if (maxlen <? length q')%nat then tail q' else q'.

(** The scan at the head of [_trigger_alert]: some alert in the history is
    for [src] and younger than [time_window * 2] at clock reading [now]. *)
Definition recently_alerted (d : DoSDetector) (src : string) (now : Z) : bool :=
  existsb (λ a, bool_decide (src_ip a = src) && (now - timestamp a <? time_window d * 2))
          (alert_history d).

(** ** [_report_to_api] *)

Definition lower_char (c : ascii) : ascii :=
  let n := N_of_ascii c in
  if (65 <=? n)%N && (n <=? 90)%N then ascii_of_N (n + 32) else c.

(** [attack_type.lower().replace(' ', '')] *)
Fixpoint api_attack_type (s : string) : string :=
  match s with
  | EmptyString => EmptyString
  | String c s' =>
      if Ascii.eqb c " " then api_attack_type s'
      else String (lower_char c) (api_attack_type s')
  end.

Definition _report_to_api (d : DoSDetector) (url src : string) (ty : AttackType) (count : Z)
  : list Call :=
  [PostReport (String.append url "/api/report-attack")
     (mkReport src "windows-firewall" (api_attack_type (attack_label ty)) count (time_window d))].

(** ** Enforcement, alerts, thresholds, the processor step and [stop] *)

(** How [stop] can end: by returning, or with the [RuntimeError] that a
    Python set iterator raises when the set changed size under it. *)
Inductive Outcome := Returned | RuntimeError.

Global Instance Outcome_eq_dec : EqDecision Outcome.
Proof. solve_decision. Defined.

Section Engine.

(** [netsh_ok c] tells whether the firewall command of call [c] ends with
    return code 0; a non-zero code and an exception inside the [try] both
    leave the blocked set as it was. *)
Context (netsh_ok : Call → bool).

(** [ipaddress.ip_address(ip).is_private], and the global
    [PROCESS_PRIVATE_IPS]. *)
Context (_is_private_ip : string → bool) (PROCESS_PRIVATE_IPS : bool).

Definition _block_ip (d : DoSDetector) (ip : string) : DoSDetector * list Call :=
  if decide (ip ∈ blocked_ips d) then (d, [])
  else if netsh_ok (NetshAddRule ip)
       then (set_blocked_ips ({[ip]} ∪ blocked_ips d) d, [NetshAddRule ip])
       else (d, [NetshAddRule ip]).

Definition _unblock_ip (d : DoSDetector) (ip : string) : DoSDetector * list Call :=
  if decide (ip ∈ blocked_ips d) then
    if netsh_ok (NetshDeleteRule ip)
    then (set_blocked_ips (blocked_ips d ∖ {[ip]}) d, [NetshDeleteRule ip])
    else (d, [NetshDeleteRule ip])
  else (d, []).

(** [if self.api_url:] is false for [None] and for the empty string. *)
Definition report_if_configured (d : DoSDetector) (src : string) (ty : AttackType) (count : Z)
  : list Call :=
  match api_url d with
  | Some (String c u) => _report_to_api d (String c u) src ty count
  | _ => []
  end.

(** [_trigger_alert], with [now] the clock reading during the call. *)
Definition _trigger_alert (d : DoSDetector) (src : string) (count : Z) (ty : AttackType)
           (now : Z) : DoSDetector * list Call :=
  if recently_alerted d src now then (d, [])
  else
    let alert := mkAlert now src count ty in
    let d1 := set_alert_history (deque_append HISTORY_MAXLEN (alert_history d) alert) d in
    let '(d2, c1) := if block_ips d1 then _block_ip d1 src else (d1, []) in
    let c2 := report_if_configured d2 src ty count in
    let d3 := set_syn_flood_tracking (<[src := 0]> (syn_flood_tracking d2)) d2 in
    let d4 := set_http_flood_tracking (<[src := 0]> (http_flood_tracking d3)) d3 in
    let d5 := set_icmp_flood_tracking (<[src := 0]> (icmp_flood_tracking d4)) d4 in
    (d5, c1 ++ c2).

(** The [if]/[elif] chain of [_check_thresholds] up to, and without, the
    call of [_trigger_alert] that ends each branch: the arguments
    [(packet_count, attack_type)] of that call, or [None] when no branch
    is taken, and the detector after the pruning and the reads. *)
Definition threshold_decision (d : DoSDetector) (src : string) (current_time : Z)
  : option (Z * AttackType) * DoSDetector :=
  let d1 := _clean_old_timestamps d src current_time in
  let '(w, mt) := dd_get [] (packet_timestamps d1) src in
  let d2 := set_packet_timestamps mt d1 in
  let recent_packets := Z.of_nat (length w) in
  if threshold d2 <=? recent_packets then
    let '(ty, d3) := _determine_attack_type d2 src in
    (Some (recent_packets, ty), d3)
  else
    let '(s, ms) := dd_get 0 (syn_flood_tracking d2) src in
    let d3 := set_syn_flood_tracking ms d2 in
    if threshold d3 / 2 <=? s then (Some (s, SynFlood), d3)
    else
      let '(h, mh) := dd_get 0 (http_flood_tracking d3) src in
      let d4 := set_http_flood_tracking mh d3 in
      if threshold d4 / 3 <=? h then (Some (h, HttpFlood), d4)
      else
        let '(i, mi) := dd_get 0 (icmp_flood_tracking d4) src in
        let d5 := set_icmp_flood_tracking mi d4 in
        if threshold d5 / 4 <=? i then (Some (i, IcmpFlood), d5)
        else (None, d5).

(** [_check_thresholds]: [current_time] is the reading passed in by the
    processor, [t_alert] the later one taken inside [_trigger_alert]. *)
Definition _check_thresholds (d : DoSDetector) (src : string) (current_time t_alert : Z)
  : DoSDetector * list Call :=
  match threshold_decision d src current_time with
  | (Some (count, ty), d') => _trigger_alert d' src count ty t_alert
  | (None, d') => (d', [])
  end.

(** One turn of the loop of [_process_packets] for a packet taken from
    the queue. *)
Definition process_packet (d : DoSDetector) (p : Packet) (now t_alert : Z)
  : DoSDetector * list Call :=
  let src := ip_src p in
  if _is_private_ip src && negb PROCESS_PRIVATE_IPS then (d, [])
  else if decide (src ∈ blocked_ips d) then (d, [])
  else
    let d1 := set_packet_timestamps (dd_append (packet_timestamps d) src now) d in
    let d2 := set_packet_counts (dd_incr (packet_counts d1) src) d1 in
    let d3 := _check_attack_signatures d2 p src in
    _check_thresholds d3 src now t_alert.

(** The [for ip in self.blocked_ips] loop of [stop].  [ips] are the items
    the iterator has still to yield and [used0] is the size of the set
    when the iterator was made: each step of a set iterator first compares
    the set's size with it and raises [RuntimeError] when they differ. *)
Fixpoint stop_loop (used0 : nat) (d : DoSDetector) (ips : list string)
  : DoSDetector * list Call * Outcome :=
  if negb (size (blocked_ips d) =? used0)%nat then (d, [], RuntimeError)
  else
    match ips with
    | [] => (d, [], Returned)
    | ip :: rest =>
        let '(d1, c1) := _unblock_ip d ip in
        let '(d2, c2, o) := stop_loop used0 d1 rest in
        (d2, c1 ++ c2, o)
    end.

Definition stop (d : DoSDetector) : DoSDetector * list Call * Outcome :=
  let d1 := set_running false d in
  if block_ips d1 && negb (bool_decide (blocked_ips d1 = ∅))
  then stop_loop (size (blocked_ips d1)) d1 (elements (blocked_ips d1))
  else (d1, [], Returned).

End Engine.

(** ** [_maintenance_task] *)

(** The body of the [for ip in list(self.packet_timestamps.keys())] loop. *)
Definition sweep_ip (current_time : Z) (d : DoSDetector) (ip : string) : DoSDetector :=
  let d1 := _clean_old_timestamps d ip current_time in
  let '(w, mt) := dd_get [] (packet_timestamps d1) ip in
  let d2 := set_packet_timestamps mt d1 in
  if (length w =? 0)%nat then
    let d3 := set_packet_timestamps (delete ip (packet_timestamps d2)) d2 in
    let d4 := set_packet_counts (delete ip (packet_counts d3)) d3 in
    let d5 := set_syn_flood_tracking (delete ip (syn_flood_tracking d4)) d4 in
    let d6 := set_http_flood_tracking (delete ip (http_flood_tracking d5)) d5 in
    set_icmp_flood_tracking (delete ip (icmp_flood_tracking d6)) d6
  else d2.

(** The sweep over a snapshot [keys] of the tracked sources. *)
Definition sweep_keys (current_time : Z) (d : DoSDetector) (keys : list string) : DoSDetector :=
  foldl (sweep_ip current_time) d keys.

(** [list(self.packet_timestamps.keys())] *)
Definition tracked_keys (d : DoSDetector) : list string :=
  (map_to_list (packet_timestamps d)).*1.

(** One turn of the [while self.running] loop, [time.sleep(5)] apart:
    the sweep at clock reading [current_time]. *)
Definition maintenance_sweep (d : DoSDetector) (current_time : Z) : DoSDetector :=
  sweep_keys current_time d (tracked_keys d).


(** ** [_packet_handler] and the loop of [_process_packets] *)


(** The [while self.running] loop of [_process_packets], run for as many
    turns as [clock] has entries; an entry holds the two clock readings of
    its turn (in the loop, and later in [_trigger_alert]).  A turn that
    finds the queue empty is the [queue.Empty] timeout: it goes on to the
    next turn.  The result is the detector, what is left in the queue and
    the calls made. *)
Fixpoint _process_packets (netsh_ok : Call → bool) (priv : string → bool) (pp : bool)
         (d : DoSDetector) (queue : list Packet) (clock : list (Z * Z))
  : DoSDetector * list Packet * list Call :=
  match clock with
  | [] => (d, queue, [])
  | (now, t_alert) :: clock' =>
      if running d then
        match queue with
        | [] => _process_packets netsh_ok priv pp d [] clock'
        | p :: queue' =>
            let '(d1, c1) := process_packet netsh_ok priv pp d p now t_alert in
            let '(d2, q2, c2) := _process_packets netsh_ok priv pp d1 queue' clock' in
            (d2, q2, c1 ++ c2)
        end
      else (d, queue, [])
  end.

(** ** Readings of the tracked state *)

(** The counter of [src] in a tracking dict, as [dict.get(src, 0)] shows it. *)
Definition counter (m : gmap string Z) (src : string) : Z := default 0 (m !! src).

(** The window of [src], empty when [src] is not tracked. *)
Definition window (d : DoSDetector) (src : string) : list Z :=
  default [] (packet_timestamps d !! src).

(** The window of [src] as [_clean_old_timestamps] leaves it at [now]. *)
Definition pruned_window (d : DoSDetector) (src : string) (now : Z) : list Z :=
  filter (λ ts, now - ts ≤ time_window d) (window d src).

(** How many of the three signatures a packet matches. *)
Definition signatures_matched (p : Packet) : nat :=
  (Nat.b2n (syn_signature p) + Nat.b2n (http_signature p) + Nat.b2n (icmp_signature p))%nat.

(** What a sweep at [now] makes of the entry [o] of a source in
    [packet_timestamps]: the pruned window when something is left of it,
    no entry otherwise. *)
Definition swept_entry (win now : Z) (o : option (list Z)) : option (list Z) :=
  match o with
  | Some l =>
      match filter (λ ts, now - ts ≤ win) l with
      | [] => None
      | l' => Some l'
      end
  | None => None
  end.

(** A projection [f] of the detector is swept along when each visit
    removes the visited source from it exactly when it removes its window. *)
Definition swept_along (now : Z) (f : DoSDetector → gmap string Z) : Prop :=
  ∀ d a ip,
    f (sweep_ip now d a) !! ip
    = if decide (ip = a)
      then (match swept_entry (time_window d) now (packet_timestamps d !! a) with
            | None => None
            | Some _ => f d !! a
            end)
      else f d !! ip.

(** ** Concrete detectors and runs used below *)

Definition always_ok : Call → bool := λ _, true.
Definition never_private : string → bool := λ _, false.

(** A detector with threshold 10 and window 10s that tracks source
    ["10.0.0.1"] with five timestamps. *)
Definition d_prune : DoSDetector :=
  set_packet_timestamps {[ "10.0.0.1"%string := [1; 30; 5; 30; 12] ]} (init 10 10 false None).

(** The processor loop over a list of queued packets, each with the clock
    reading of its turn; the calls to the outside are dropped. *)
Definition process_all (netsh_ok : Call → bool) (priv : string → bool) (pp : bool)
  (d : DoSDetector) (evs : list (Packet * Z)) : DoSDetector :=
  foldl (λ d ev, (process_packet netsh_ok priv pp d ev.1 ev.2 ev.2).1) d evs.

(** A bare SYN to port 22, a packet with neither TCP nor ICMP (UDP, say),
    and a SYN to port 80 that already carries a request. *)
Definition syn_pkt (src : string) : Packet := mkPacket src (Some (mkTCP 2 22)) false None.
Definition udp_pkt (src : string) : Packet := mkPacket src None false None.
Definition syn_http_pkt (src : string) : Packet :=
  mkPacket src (Some (mkTCP 2 80)) false (Some "GET / HTTP/1.1"%string).

(** Ten packets of one source within ten seconds: three SYNs, seven others. *)
Definition mixed_burst : list (Packet * Z) :=
  [(syn_pkt "10.0.0.1", 1); (syn_pkt "10.0.0.1", 2); (syn_pkt "10.0.0.1", 3);
   (udp_pkt "10.0.0.1", 4); (udp_pkt "10.0.0.1", 5); (udp_pkt "10.0.0.1", 6);
   (udp_pkt "10.0.0.1", 7); (udp_pkt "10.0.0.1", 8); (udp_pkt "10.0.0.1", 9);
   (udp_pkt "10.0.0.1", 10)].

(** The detector (threshold 10) when the check of the tenth packet of
    [mixed_burst] starts. *)
Definition d_mixed : DoSDetector :=
  set_icmp_flood_tracking {[ "10.0.0.1"%string := 0 ]}
    (set_http_flood_tracking {[ "10.0.0.1"%string := 0 ]}
       (set_syn_flood_tracking {[ "10.0.0.1"%string := 3 ]}
          (set_packet_counts {[ "10.0.0.1"%string := 10 ]}
             (set_packet_timestamps {[ "10.0.0.1"%string := [1; 2; 3; 4; 5; 6; 7; 8; 9; 10] ]}
                (init 10 10 false None))))).

(** Threshold 15, five HTTP-marker packets tracked and nothing else. *)
Definition d_http : DoSDetector :=
  set_http_flood_tracking {[ "10.0.0.2"%string := 5 ]}
    (set_packet_timestamps {[ "10.0.0.2"%string := [1; 2; 3; 4; 5] ]}
       (init 15 10 false None)).

(** A detector (window 10s, enforcement on, reporting on) that has alerted
    on ["10.0.0.6"] at time 100 and tracks two sources. *)
Definition d_alerted : DoSDetector :=
  set_alert_history [mkAlert 100 "10.0.0.6" 12 SynFlood]
    (set_syn_flood_tracking {[ "10.0.0.6"%string := 7; "10.0.0.7"%string := 9 ]}
       (set_packet_timestamps {[ "10.0.0.6"%string := [118; 119]; "10.0.0.7"%string := [119] ]}
          (init 10 10 true (Some "http://collector"%string)))).

(** Source ["10.0.0.8"] was last seen at 3 and 4, ["10.0.0.9"] at 3 and 55. *)
Definition d_stale : DoSDetector :=
  set_icmp_flood_tracking {[ "10.0.0.8"%string := 2; "10.0.0.9"%string := 1 ]}
    (set_packet_counts {[ "10.0.0.8"%string := 2; "10.0.0.9"%string := 2 ]}
       (set_packet_timestamps {[ "10.0.0.8"%string := [3; 4]; "10.0.0.9"%string := [3; 55] ]}
          (init 10 10 false None))).

(** Enforcement on, two sources blocked. *)
Definition d_blocked : DoSDetector :=
  set_blocked_ips {[ "1.1.1.1"%string; "2.2.2.2"%string ]} (init 10 10 true None).

(** A run of calls of [_trigger_alert], one per source, at one clock reading. *)
Definition trigger_all (netsh_ok : Call → bool) (d : DoSDetector) (srcs : list string)
  (count : Z) (ty : AttackType) (now : Z) : DoSDetector :=
  foldl (λ d src, (_trigger_alert netsh_ok d src count ty now).1) d srcs.

(** The hundred sources ["10.1.0.0"] to ["10.1.0.99"]. *)
Definition flood_sources : list string :=
  (λ n : nat, "10.1.0." +:+ pretty n) <$> seq 0 100.

(** ** [show_statistics] *)

(** [sorted(l, key=key, reverse=True)]: descending by key; the sort is
    stable, so items with equal keys keep their order.  [insert_desc] puts
    an item in front of the first one whose key is not greater. *)
Fixpoint insert_desc {A} (key : A → Z) (x : A) (l : list A) : list A :=
  match l with
  | [] => [x]
  | y :: l' => if key x <? key y then y :: insert_desc key x l' else x :: l
  end.

Definition sorted_desc {A} (key : A → Z) (l : list A) : list A :=
  foldr (insert_desc key) [] l.

(** A row of the "Current Traffic" table and a row of the "Recent Alerts"
    table, as handed to [tabulate]; the time of an alert is kept as the
    clock reading instead of its formatted text. *)
Record TrafficRow := mkTrafficRow {
  row_ip : string;
  row_packets : Z;
  row_syn : Z;
  row_http : Z;
  row_icmp : Z;
  row_status : string
}.

Record AlertRow := mkAlertRow {
  arow_time : Z;
  arow_ip : string;
  arow_type : string;
  arow_packets : Z;
  arow_status : string
}.

(** ["BLOCKED" if ip in self.blocked_ips else ""] *)
Definition status (d : DoSDetector) (ip : string) : string :=
  if decide (ip ∈ blocked_ips d) then "BLOCKED" else "".

(** The list [current_traffic]; [items] is [self.packet_counts.items()],
    in the order the dict yields them. *)
Definition current_traffic (d : DoSDetector) (items : list (string * Z)) : list TrafficRow :=
  (λ item : string * Z,
     mkTrafficRow item.1 item.2
       (counter (syn_flood_tracking d) item.1)
       (counter (http_flood_tracking d) item.1)
       (counter (icmp_flood_tracking d) item.1)
       (status d item.1))
    <$> take 10 (sorted_desc snd items).

(** The list [alerts]. *)
Definition recent_alerts (d : DoSDetector) : list AlertRow :=
  (λ a, mkAlertRow (timestamp a) (src_ip a) (attack_label (attack_type a))
          (packet_count a) (status d (src_ip a)))
    <$> sorted_desc timestamp (alert_history d).

(** ** Upper-case letters, for the markers of the HTTP signature *)

Definition is_upper (c : ascii) : bool :=
  let n := N_of_ascii c in (65 <=? n)%N && (n <=? 90)%N.

Fixpoint all_upper (s : string) : bool :=
  match s with
  | EmptyString => true
  | String c s' => is_upper c && all_upper s'
  end.

Fixpoint no_upper (s : string) : bool :=
  match s with
  | EmptyString => true
  | String c s' => negb (is_upper c) && no_upper s'
  end.

(** ** Notions used to state what the processor keeps *)

(** The detector when [process_packet] reaches the threshold check: the
    timestamp appended, the packet counted, the signatures counted. *)
Definition recorded (d : DoSDetector) (p : Packet) (now : Z) : DoSDetector :=
  let src := ip_src p in
  let d1 := set_packet_timestamps (dd_append (packet_timestamps d) src now) d in
  let d2 := set_packet_counts (dd_incr (packet_counts d1) src) d1 in
  _check_attack_signatures d2 p src.

(** A read of a [defaultdict(int)] at [src] leaves the dict as it is or,
    when [src] was missing, binds it to 0. *)
Definition touched (src : string) (m m' : gmap string Z) : Prop :=
  m' = m ∨ (m !! src = None ∧ m' = <[src := 0]> m).

(** The five tracking dicts hold the same for source [ip] in [d] and [d']. *)
Definition same_at (ip : string) (d d' : DoSDetector) : Prop :=
  packet_timestamps d' !! ip = packet_timestamps d !! ip ∧
  packet_counts d' !! ip = packet_counts d !! ip ∧
  syn_flood_tracking d' !! ip = syn_flood_tracking d !! ip ∧
  http_flood_tracking d' !! ip = http_flood_tracking d !! ip ∧
  icmp_flood_tracking d' !! ip = icmp_flood_tracking d !! ip.

(** The detectors that turns of the processor loop and of the maintenance
    loop, in any order and at any clock readings, make of [d0]. *)
Inductive reachable (netsh_ok : Call → bool) (priv : string → bool) (pp : bool)
          (d0 : DoSDetector) : DoSDetector → Prop :=
| reach_start : reachable netsh_ok priv pp d0 d0
| reach_packet d p now t_alert :
    reachable netsh_ok priv pp d0 d →
    reachable netsh_ok priv pp d0 (process_packet netsh_ok priv pp d p now t_alert).1
| reach_sweep d now :
    reachable netsh_ok priv pp d0 d →
    reachable netsh_ok priv pp d0 (maintenance_sweep d now).

(** The detectors that turns of the processor loop and of the maintenance
    loop make of [d0] when every turn may get its own answers from the
    firewall ([ok] is the oracle of that turn). *)
Inductive evolves (priv : string → bool) (pp : bool) (d0 : DoSDetector)
  : DoSDetector → Prop :=
| evolves_start : evolves priv pp d0 d0
| evolves_packet ok d p now t_alert :
    evolves priv pp d0 d →
    evolves priv pp d0 (process_packet ok priv pp d p now t_alert).1
| evolves_sweep d now :
    evolves priv pp d0 d →
    evolves priv pp d0 (maintenance_sweep d now).



(** The clock reading of the last of the turns at [t0 :: ts]. *)
Definition final_time (t0 : Z) (ts : list Z) : Z := default t0 (last ts).

(** * Properties *)

(** ** Pruning *)

Lemma count_occ_filter_keep (P : Z → Prop) `{!∀ x, Decision (P x)} (l : list Z) (x : Z) :
  P x → count_occ Z.eq_dec (filter P l) x = count_occ Z.eq_dec l x.
Proof.
  intros HP. induction l as [|y l IH]; [done|].
  rewrite filter_cons. destruct (decide (P y)) as [Hy|Hy]; simpl.
  - destruct (Z.eq_dec y x); by rewrite IH.
  - destruct (Z.eq_dec y x) as [->|]; [done | exact IH].
Qed.

Lemma clean_lookup_same d src now l :
  packet_timestamps d !! src = Some l →
  packet_timestamps (_clean_old_timestamps d src now) !! src
  = Some (filter (λ ts, now - ts ≤ time_window d) l).
Proof.
  intros H. unfold _clean_old_timestamps. rewrite H. simpl. apply lookup_insert_eq.
Qed.

Lemma clean_lookup_other d src now ip :
  ip ≠ src →
  packet_timestamps (_clean_old_timestamps d src now) !! ip = packet_timestamps d !! ip.
Proof.
  intros Hne. unfold _clean_old_timestamps.
  destruct (packet_timestamps d !! src); [simpl | done]. by rewrite lookup_insert_ne.
Qed.

Lemma clean_lookup d src now ip :
  packet_timestamps (_clean_old_timestamps d src now) !! ip
  = if decide (ip = src)
    then filter (λ ts, now - ts ≤ time_window d) <$> packet_timestamps d !! ip
    else packet_timestamps d !! ip.
Proof.
  case_decide as Heq.
  - subst ip. destruct (packet_timestamps d !! src) as [l|] eqn:E.
    + by rewrite (clean_lookup_same _ _ _ l).
    + unfold _clean_old_timestamps. by rewrite !E.
  - by apply clean_lookup_other.
Qed.

(** C5. Pruning the record of [src] at time [now] leaves a subsequence of
    the old window (original order kept) in which every timestamp with
    [now - ts <= W] occurs as often as before, from which every timestamp
    with [now - ts > W] is gone, and which therefore holds no timestamp
    older than [now - W]; the windows of other sources are not touched. *)
Theorem C5_prune_removes_exactly_expired (d : DoSDetector) (src : string) (now : Z) (l : list Z) :
  packet_timestamps d !! src = Some l →
  ∃ l', packet_timestamps (_clean_old_timestamps d src now) !! src = Some l' ∧
        l' `sublist_of` l ∧
        (∀ ts, now - ts ≤ time_window d →
               count_occ Z.eq_dec l' ts = count_occ Z.eq_dec l ts) ∧
        (∀ ts, now - ts > time_window d → ts ∉ l') ∧
        (∀ ts, ts ∈ l' → ¬ ts < now - time_window d) ∧
        (∀ ip, ip ≠ src →
               packet_timestamps (_clean_old_timestamps d src now) !! ip
               = packet_timestamps d !! ip).
Proof.
  intros Hl. eexists. split; [by apply clean_lookup_same|].
  split; [apply sublist_filter|].
  split; [intros ts Hts; by apply count_occ_filter_keep|].
  split; [intros ts Hts [Hin _]%list_elem_of_filter; lia|].
  split; [intros ts [Hin _]%list_elem_of_filter; lia|].
  intros ip Hne. by apply clean_lookup_other.
Qed.

Lemma C5_prune_witness :
  ∃ l', packet_timestamps (_clean_old_timestamps d_prune "10.0.0.1" 32) !! "10.0.0.1"%string
        = Some l' ∧ l' = [30; 30].
Proof.
  destruct (C5_prune_removes_exactly_expired d_prune "10.0.0.1" 32 [1; 30; 5; 30; 12])
    as (l' & Hl' & _); [reflexivity|].
  exists l'. split; [exact Hl'|].
  vm_compute in Hl'. by injection Hl' as <-.
Defined.

(** ** The threshold chain *)

Lemma dd_get_fst {V} (dflt : V) m k : (dd_get dflt m k).1 = default dflt (m !! k).
Proof. unfold dd_get. by destruct (m !! k). Qed.

Lemma dd_get_snd_lookup {V} (dflt : V) m k k' :
  (dd_get dflt m k).2 !! k'
  = if decide (k' = k) then Some (default dflt (m !! k)) else m !! k'.
Proof.
  unfold dd_get. destruct (m !! k) eqn:E; simpl; case_decide; subst; try done.
  - by rewrite lookup_insert_eq.
  - by rewrite lookup_insert_ne.
Qed.

(** The label [_determine_attack_type] returns, from the counter values. *)
Lemma determine_attack_type_fst d src :
  (_determine_attack_type d src).1
  = let mt := max_type (counter (syn_flood_tracking d) src)
                       (counter (http_flood_tracking d) src)
                       (counter (icmp_flood_tracking d) src) in
    if threshold d / 5 <? mt.2 then mt.1 else GeneralDoS.
Proof.
  unfold _determine_attack_type, counter, dd_get.
  destruct (syn_flood_tracking d !! src), (http_flood_tracking d !! src),
    (icmp_flood_tracking d !! src); simpl;
    match goal with |- context [if ?b then _ else _] => destruct b end; reflexivity.
Qed.

(** The window that the chain measures is the pruned one. *)
Lemma clean_window d src now :
  window (_clean_old_timestamps d src now) src = pruned_window d src now.
Proof.
  unfold window, pruned_window, window. rewrite clean_lookup, decide_True by done.
  by destruct (packet_timestamps d !! src).
Qed.

(** The arguments [_check_thresholds] passes to [_trigger_alert], from the
    pruned window and the counter values. *)
Lemma threshold_decision_fst d src now :
  (threshold_decision d src now).1
  = let n := Z.of_nat (length (pruned_window d src now)) in
    let s := counter (syn_flood_tracking d) src in
    let h := counter (http_flood_tracking d) src in
    let i := counter (icmp_flood_tracking d) src in
    if threshold d <=? n then
      Some (n, let mt := max_type s h i in
               if threshold d / 5 <? mt.2 then mt.1 else GeneralDoS)
    else if threshold d / 2 <=? s then Some (s, SynFlood)
    else if threshold d / 3 <=? h then Some (h, HttpFlood)
    else if threshold d / 4 <=? i then Some (i, IcmpFlood)
    else None.
Proof.
  rewrite <- clean_window. unfold threshold_decision, window.
  set (d1 := _clean_old_timestamps d src now).
  assert (Hthr : threshold d1 = threshold d)
    by (unfold d1, _clean_old_timestamps; by destruct (packet_timestamps d !! src)).
  assert (Hs : syn_flood_tracking d1 = syn_flood_tracking d)
    by (unfold d1, _clean_old_timestamps; by destruct (packet_timestamps d !! src)).
  assert (Hh : http_flood_tracking d1 = http_flood_tracking d)
    by (unfold d1, _clean_old_timestamps; by destruct (packet_timestamps d !! src)).
  assert (Hi : icmp_flood_tracking d1 = icmp_flood_tracking d)
    by (unfold d1, _clean_old_timestamps; by destruct (packet_timestamps d !! src)).
  rewrite <- Hthr, <- Hs, <- Hh, <- Hi. clearbody d1. clear.
  cbv zeta.
  destruct (dd_get [] (packet_timestamps d1) src) as [w mt] eqn:Ew.
  assert (Hw : w = default [] (packet_timestamps d1 !! src))
    by (rewrite <- (dd_get_fst [] (packet_timestamps d1) src); by rewrite Ew).
  rewrite <- Hw. simpl threshold.
  destruct (threshold d1 <=? Z.of_nat (length w)) eqn:E1.
  - pose proof (determine_attack_type_fst (set_packet_timestamps mt d1) src) as Hd.
    destruct (_determine_attack_type (set_packet_timestamps mt d1) src) as [ty d3].
    simpl in Hd. rewrite Hd. reflexivity.
  - unfold counter, dd_get. simpl.
    destruct (syn_flood_tracking d1 !! src) as [s|]; simpl;
      (match goal with |- context [threshold d1 / 2 <=? ?x] =>
         destruct (threshold d1 / 2 <=? x) end; [reflexivity|]);
      (destruct (http_flood_tracking d1 !! src) as [h|]; simpl;
       (match goal with |- context [threshold d1 / 3 <=? ?x] =>
          destruct (threshold d1 / 3 <=? x) end; [reflexivity|]);
       (destruct (icmp_flood_tracking d1 !! src) as [i|]; simpl;
        match goal with |- context [threshold d1 / 4 <=? ?x] =>
          destruct (threshold d1 / 4 <=? x) end; reflexivity)).
Qed.

(** What [threshold_decision] leaves alone. *)
Lemma threshold_decision_frame d src now :
  let d' := (threshold_decision d src now).2 in
  alert_history d' = alert_history d ∧ time_window d' = time_window d ∧
  threshold d' = threshold d ∧ block_ips d' = block_ips d ∧
  api_url d' = api_url d ∧ blocked_ips d' = blocked_ips d ∧
  packet_counts d' = packet_counts d.
Proof.
  unfold threshold_decision, _determine_attack_type, _clean_old_timestamps, dd_get.
  destruct d as [thr win blk api pc pt sy ht ic bl rn ah]. cbn -[Z.div Z.leb Z.ltb filter].
  destruct (pt !! src) eqn:E; cbn -[Z.div Z.leb Z.ltb filter];
    rewrite ?lookup_insert_eq, ?E; cbn -[Z.div Z.leb Z.ltb filter];
    destruct (sy !! src), (ht !! src), (ic !! src); cbn -[Z.div Z.leb Z.ltb filter];
    repeat (match goal with
            | |- context [if ?b then _ else _] => destruct b
            end; cbn -[Z.div Z.leb Z.ltb filter]); repeat split.
Qed.

(** ** The refined attack type *)

Lemma max_type_cases (s h i : Z) :
  max_type s h i
  = if s <? h then (if h <? i then (IcmpFlood, i) else (HttpFlood, h))
    else (if s <? i then (IcmpFlood, i) else (SynFlood, s)).
Proof.
  unfold max_type, attack_types. simpl.
  destruct (s <? h); simpl; [destruct (h <? i) | destruct (s <? i)]; reflexivity.
Qed.

(** C4. [_determine_attack_type] picks the greatest of the three counters,
    SYN before HTTP before ICMP among equal ones: SYN unless another counter
    is strictly greater, HTTP only when strictly above SYN and not below
    ICMP, ICMP only when strictly above both; when that maximum is above
    [threshold // 5] its label is the one returned. *)
Theorem C4_max_signature_first_declared_wins (d : DoSDetector) (src : string) :
  let s := counter (syn_flood_tracking d) src in
  let h := counter (http_flood_tracking d) src in
  let i := counter (icmp_flood_tracking d) src in
  let mt := max_type s h i in
  mt.2 = Z.max s (Z.max h i) ∧
  (mt.1 = SynFlood ↔ h ≤ s ∧ i ≤ s) ∧
  (mt.1 = HttpFlood ↔ s < h ∧ i ≤ h) ∧
  (mt.1 = IcmpFlood ↔ s < i ∧ h < i) ∧
  (threshold d / 5 < mt.2 → (_determine_attack_type d src).1 = mt.1).
Proof.
  intros s h i mt.
  assert (Hd : (_determine_attack_type d src).1
               = if threshold d / 5 <? mt.2 then mt.1 else GeneralDoS)
    by apply determine_attack_type_fst.
  unfold mt in *. rewrite max_type_cases in *.
  destruct (Z.ltb_spec s h), (Z.ltb_spec h i), (Z.ltb_spec s i); simpl in *;
    (split; [lia|]);
    (split; [split; [try discriminate; lia | intros; try reflexivity; lia]|]);
    (split; [split; [try discriminate; lia | intros; try reflexivity; lia]|]);
    (split; [split; [try discriminate; lia | intros; try reflexivity; lia]|]);
    intros Hgt; rewrite Hd; by rewrite (proj2 (Z.ltb_lt _ _) Hgt).
Qed.

(** All three counters equal: SYN is chosen. *)
Lemma C4_max_signature_witness :
  (_determine_attack_type
     (set_icmp_flood_tracking {[ "10.0.0.3"%string := 4 ]}
        (set_http_flood_tracking {[ "10.0.0.3"%string := 4 ]}
           (set_syn_flood_tracking {[ "10.0.0.3"%string := 4 ]}
              (init 10 10 false None)))) "10.0.0.3").1 = SynFlood.
Proof.
  match goal with |- (_determine_attack_type ?d ?src).1 = _ =>
    pose proof (C4_max_signature_first_declared_wins d src) as (_ & Hsyn & _ & _ & Hlab)
  end.
  rewrite Hlab; [apply Hsyn|]; vm_compute; done.
Defined.

(** ** Firing and suppressing alerts *)

Lemma deque_append_cases {A} (maxlen : nat) (q : list A) (x : A) :
  deque_append (S maxlen) q x
  = if (length q <? S maxlen)%nat then q ++ [x] else tail q ++ [x].
Proof.
  unfold deque_append. rewrite length_app. simpl length.
  destruct (Nat.ltb_spec (S maxlen) (length q + 1)),
    (Nat.ltb_spec (length q) (S maxlen)); try lia; try reflexivity.
  destruct q; [simpl in *; lia | reflexivity].
Qed.

Lemma last_deque_append {A} (maxlen : nat) (q : list A) (x : A) :
  last (deque_append (S maxlen) q x) = Some x.
Proof. rewrite deque_append_cases. case_match; apply last_snoc. Qed.

Lemma length_deque_append {A} (maxlen : nat) (q : list A) (x : A) :
  (length q ≤ S maxlen)%nat → (length (deque_append (S maxlen) q x) ≤ S maxlen)%nat.
Proof.
  intros Hq. rewrite deque_append_cases.
  destruct (Nat.ltb_spec (length q) (S maxlen)); rewrite length_app; simpl.
  - lia.
  - destruct q; simpl in *; lia.
Qed.

Lemma recently_alerted_true d src now :
  recently_alerted d src now = true ↔
  ∃ a, a ∈ alert_history d ∧ src_ip a = src ∧ now - timestamp a < time_window d * 2.
Proof.
  unfold recently_alerted. rewrite existsb_exists. split.
  - intros (a & Hin & Hc). exists a. apply andb_true_iff in Hc as [Hs Ht].
    apply bool_decide_eq_true in Hs. apply Z.ltb_lt in Ht.
    by rewrite list_elem_of_In.
  - intros (a & Hin & Hs & Ht). exists a. rewrite <- list_elem_of_In.
    split; [done|]. apply andb_true_iff. split.
    + by apply bool_decide_eq_true.
    + by apply Z.ltb_lt.
Qed.

Lemma recently_alerted_false d src now :
  recently_alerted d src now = false ↔
  ∀ a, a ∈ alert_history d → src_ip a = src → time_window d * 2 ≤ now - timestamp a.
Proof.
  rewrite <- not_true_iff_false, recently_alerted_true. split.
  - intros Hno a Hin Hs. destruct (Z.le_gt_cases (time_window d * 2) (now - timestamp a));
      [done|]. exfalso. apply Hno. exists a. auto with lia.
  - intros Hall (a & Hin & Hs & Ht). specialize (Hall a Hin Hs). lia.
Qed.

Section AlertFacts.

Context (netsh_ok : Call → bool).

Lemma block_ip_frame d ip :
  let d' := (_block_ip netsh_ok d ip).1 in
  alert_history d' = alert_history d ∧ packet_timestamps d' = packet_timestamps d ∧
  syn_flood_tracking d' = syn_flood_tracking d ∧
  http_flood_tracking d' = http_flood_tracking d ∧
  icmp_flood_tracking d' = icmp_flood_tracking d ∧
  api_url d' = api_url d ∧ time_window d' = time_window d.
Proof. unfold _block_ip. repeat case_match; done. Qed.

Lemma trigger_suppressed d src count ty now :
  recently_alerted d src now = true →
  _trigger_alert netsh_ok d src count ty now = (d, []).
Proof. intros H. unfold _trigger_alert. by rewrite H. Qed.

(** The state after an alert that is not suppressed. *)
Lemma trigger_fires d src count ty now :
  recently_alerted d src now = false →
  let d' := (_trigger_alert netsh_ok d src count ty now).1 in
  alert_history d'
  = deque_append HISTORY_MAXLEN (alert_history d) (mkAlert now src count ty) ∧
  packet_timestamps d' = packet_timestamps d ∧
  syn_flood_tracking d' = <[src := 0]> (syn_flood_tracking d) ∧
  http_flood_tracking d' = <[src := 0]> (http_flood_tracking d) ∧
  icmp_flood_tracking d' = <[src := 0]> (icmp_flood_tracking d) ∧
  time_window d' = time_window d.
Proof.
  intros H. unfold _trigger_alert. rewrite H. simpl block_ips.
  set (d1 := set_alert_history _ d).
  destruct (block_ips d).
  - pose proof (block_ip_frame d1 src) as Hf. cbv zeta in Hf.
    destruct (_block_ip netsh_ok d1 src) as [d2 c1]. simpl in *.
    destruct Hf as (-> & -> & -> & -> & -> & _ & ->). done.
  - done.
Qed.

End AlertFacts.

(** ** What [_check_thresholds] raises *)

(** The call that ends the branch the chain takes. *)
Lemma check_thresholds_call (netsh_ok : Call → bool) d src now t count ty :
  (threshold_decision d src now).1 = Some (count, ty) →
  _check_thresholds netsh_ok d src now t
  = _trigger_alert netsh_ok (threshold_decision d src now).2 src count ty t.
Proof.
  unfold _check_thresholds. destruct (threshold_decision d src now) as [r d'].
  simpl. by intros ->.
Qed.

(** The scan for a recent alert sees after the chain what it saw before. *)
Lemma threshold_decision_recently_alerted d src now t :
  recently_alerted (threshold_decision d src now).2 src t = recently_alerted d src t.
Proof.
  pose proof (threshold_decision_frame d src now) as (Hh & Hw & _).
  unfold recently_alerted. cbv zeta in Hh, Hw. by rewrite Hh, Hw.
Qed.

(** The alert a branch of the chain records when it is not suppressed. *)
Lemma check_thresholds_fires (netsh_ok : Call → bool) d src now t count ty :
  (threshold_decision d src now).1 = Some (count, ty) →
  recently_alerted d src t = false →
  last (alert_history (_check_thresholds netsh_ok d src now t).1)
  = Some (mkAlert t src count ty).
Proof.
  intros Hdec Hrec. rewrite (check_thresholds_call netsh_ok d src now t count ty Hdec).
  rewrite <- (threshold_decision_recently_alerted d src now t) in Hrec.
  destruct (trigger_fires netsh_ok (threshold_decision d src now).2 src count ty t Hrec)
    as (-> & _).
  apply last_deque_append.
Qed.

(** A check for a source with a recent alert records nothing and calls
    nothing, whichever branch it takes. *)
Lemma check_thresholds_suppressed (netsh_ok : Call → bool) d src now t :
  recently_alerted d src t = true →
  alert_history (_check_thresholds netsh_ok d src now t).1 = alert_history d ∧
  (_check_thresholds netsh_ok d src now t).2 = [].
Proof.
  intros Hrec. rewrite <- (threshold_decision_recently_alerted d src now t) in Hrec.
  pose proof (threshold_decision_frame d src now) as (Hh & _). cbv zeta in Hh.
  unfold _check_thresholds.
  destruct (threshold_decision d src now) as [[[count ty]|] d']; simpl in *; [|done].
  by rewrite (trigger_suppressed netsh_ok d' src count ty t Hrec).
Qed.

(** C1. [_check_thresholds] on the pruned record tests four conditions in
    a fixed order and acts on the first that holds: the window length
    against [threshold] (general path: [_trigger_alert] is called with the
    window length and the label of [_determine_attack_type]); else the SYN
    counter against [threshold // 2] ([SynFlood] with the SYN counter); else
    the HTTP counter against [threshold // 3] ([HttpFlood] with the HTTP
    counter); else the ICMP counter against [threshold // 4] ([IcmpFlood]
    with the ICMP counter).  On each branch the check is that call of
    [_trigger_alert], and when no alert of the source is recent the alert
    with that label and count is the last of the history.  When no condition
    holds, and also when an alert of the source is recent, no alert is
    recorded and no call is made. *)
Theorem C1_threshold_chain_first_match (netsh_ok : Call → bool)
        (d : DoSDetector) (src : string) (now t_alert : Z) :
  let n := Z.of_nat (length (pruned_window d src now)) in
  let s := counter (syn_flood_tracking d) src in
  let h := counter (http_flood_tracking d) src in
  let i := counter (icmp_flood_tracking d) src in
  let thr := threshold d in
  let r := (threshold_decision d src now).1 in
  let d' := (threshold_decision d src now).2 in
  let out := _check_thresholds netsh_ok d src now t_alert in
  let raised (count : Z) (ty : AttackType) :=
    r = Some (count, ty) ∧
    out = _trigger_alert netsh_ok d' src count ty t_alert ∧
    (recently_alerted d src t_alert = false →
     last (alert_history out.1) = Some (mkAlert t_alert src count ty)) in
  (thr ≤ n → raised n (_determine_attack_type d src).1) ∧
  (n < thr → thr / 2 ≤ s → raised s SynFlood) ∧
  (n < thr → s < thr / 2 → thr / 3 ≤ h → raised h HttpFlood) ∧
  (n < thr → s < thr / 2 → h < thr / 3 → thr / 4 ≤ i → raised i IcmpFlood) ∧
  (n < thr → s < thr / 2 → h < thr / 3 → i < thr / 4 →
   r = None ∧ alert_history out.1 = alert_history d ∧ out.2 = []) ∧
  (recently_alerted d src t_alert = true →
   alert_history out.1 = alert_history d ∧ out.2 = []).
Proof.
  intros n s h i thr r d' out raised.
  assert (Hr : r = (threshold_decision d src now).1) by reflexivity.
  rewrite threshold_decision_fst in Hr. cbv zeta in Hr.
  fold n s h i thr in Hr.
  assert (Hdet : (_determine_attack_type d src).1
                 = let mt := max_type s h i in
                   if thr / 5 <? mt.2 then mt.1 else GeneralDoS)
    by apply determine_attack_type_fst.
  assert (Hraise : ∀ count ty, r = Some (count, ty) → raised count ty).
  { intros count ty Hdec. unfold raised, out, d'. split_and!.
    - done.
    - by apply check_thresholds_call.
    - intros Hrec. by apply check_thresholds_fires. }
  split_and!.
  - intros Hn. apply Hraise. rewrite Hr, Hdet. by rewrite (proj2 (Z.leb_le thr n)).
  - intros Hn Hs. apply Hraise. rewrite Hr.
    rewrite (proj2 (Z.leb_gt thr n)) by done. by rewrite (proj2 (Z.leb_le (thr / 2) s)).
  - intros Hn Hs Hh. apply Hraise. rewrite Hr.
    rewrite (proj2 (Z.leb_gt thr n)), (proj2 (Z.leb_gt (thr / 2) s)) by done.
    by rewrite (proj2 (Z.leb_le (thr / 3) h)).
  - intros Hn Hs Hh Hi. apply Hraise. rewrite Hr.
    rewrite (proj2 (Z.leb_gt thr n)), (proj2 (Z.leb_gt (thr / 2) s)),
      (proj2 (Z.leb_gt (thr / 3) h)) by done.
    by rewrite (proj2 (Z.leb_le (thr / 4) i)).
  - intros Hn Hs Hh Hi.
    assert (Hnone : (threshold_decision d src now).1 = None).
    { fold r. rewrite Hr.
      by rewrite (proj2 (Z.leb_gt thr n)), (proj2 (Z.leb_gt (thr / 2) s)),
        (proj2 (Z.leb_gt (thr / 3) h)), (proj2 (Z.leb_gt (thr / 4) i)). }
    split; [exact Hnone|]. unfold out, _check_thresholds.
    pose proof (threshold_decision_frame d src now) as (Hf & _). cbv zeta in Hf.
    destruct (threshold_decision d src now) as [[[c ty]|] d1]; simpl in *; done.
  - intros Hrec. by apply check_thresholds_suppressed.
Qed.

(** Five HTTP-marker packets against threshold 15 and no alert so far: the
    check takes the HTTP branch and records an HTTP flood counting 5. *)
Lemma C1_threshold_chain_witness :
  (threshold_decision d_http "10.0.0.2" 5).1 = Some (5, HttpFlood) ∧
  last (alert_history (_check_thresholds always_ok d_http "10.0.0.2" 5 5).1)
  = Some (mkAlert 5 "10.0.0.2" 5 HttpFlood).
Proof.
  pose proof (C1_threshold_chain_first_match always_ok d_http "10.0.0.2" 5 5)
    as (_ & _ & Hhttp & _).
  destruct Hhttp as (Hdec & _ & Hlast); [vm_compute; done..|].
  split; [exact Hdec | apply Hlast; reflexivity].
Defined.

(** ** The alert of the general path *)

(** C3, as the code has it. On the general path ([threshold] reached by
    the pruned window) an alert that is not suppressed is labelled with the
    signature of the greatest counter when that counter is above
    [threshold // 5], and [GeneralDoS] otherwise; in both cases the count it
    carries is the length of the window. *)
Theorem C3_general_path_alert (netsh_ok : Call → bool)
        (d : DoSDetector) (src : string) (now t_alert : Z) :
  let n := Z.of_nat (length (pruned_window d src now)) in
  let mt := max_type (counter (syn_flood_tracking d) src)
                     (counter (http_flood_tracking d) src)
                     (counter (icmp_flood_tracking d) src) in
  threshold d ≤ n →
  recently_alerted d src t_alert = false →
  last (alert_history (_check_thresholds netsh_ok d src now t_alert).1)
  = Some (mkAlert t_alert src n (if threshold d / 5 <? mt.2 then mt.1 else GeneralDoS)).
Proof.
  intros n mt Hn Hrec. unfold _check_thresholds.
  pose proof (threshold_decision_fst d src now) as Hfst. cbv zeta in Hfst.
  fold n mt in Hfst. rewrite (proj2 (Z.leb_le _ _) Hn) in Hfst.
  pose proof (threshold_decision_frame d src now) as (Hh & Hw & _). 
  destruct (threshold_decision d src now) as [r d']. simpl in Hfst, Hh, Hw. subst r.
  assert (Hrec' : recently_alerted d' src t_alert = false)
    by (unfold recently_alerted in *; by rewrite Hh, Hw).
  pose proof (trigger_fires netsh_ok d' src n
                (if threshold d / 5 <? mt.2 then mt.1 else GeneralDoS) t_alert Hrec')
    as (Hhist & _).
  rewrite Hhist, Hh. apply last_deque_append.
Qed.

Lemma C3_general_path_witness :
  last (alert_history (_check_thresholds always_ok d_mixed "10.0.0.1" 10 10).1)
  = Some (mkAlert 10 "10.0.0.1" 10 SynFlood).
Proof.
  apply (C3_general_path_alert always_ok d_mixed "10.0.0.1" 10 10); vm_compute; done.
Defined.

(** Three SYNs and seven other packets against threshold 10: when the tenth
    packet is checked the window holds 10 timestamps and the greatest
    counter is SYN with 3, above [10 // 5 = 2]; the alert is labelled
    [SynFlood] but counts 10, not 3. *)
Lemma C3_evidence_counterexample :
  let src := "10.0.0.1"%string in
  let d9 := process_all always_ok never_private false (init 10 10 false None)
                        (take 9 mixed_burst) in
  let d_pre := _check_attack_signatures
                 (set_packet_counts (dd_incr (packet_counts d9) src)
                    (set_packet_timestamps (dd_append (packet_timestamps d9) src 10) d9))
                 (udp_pkt src) src in
  let mt := max_type (counter (syn_flood_tracking d_pre) src)
                     (counter (http_flood_tracking d_pre) src)
                     (counter (icmp_flood_tracking d_pre) src) in
  d_pre = d_mixed ∧
  threshold d_pre ≤ Z.of_nat (length (pruned_window d_pre src 10)) ∧
  mt = (SynFlood, 3) ∧ threshold d_pre / 5 < mt.2 ∧
  alert_history (_check_thresholds always_ok d_pre src 10 10).1
  = [mkAlert 10 src 10 SynFlood] ∧
  alert_history (process_all always_ok never_private false (init 10 10 false None) mixed_burst)
  = [mkAlert 10 src 10 SynFlood] ∧
  ¬ (packet_count <$> last (alert_history (_check_thresholds always_ok d_pre src 10 10).1)
     = Some mt.2).
Proof. vm_compute. repeat split; try done. Qed.

(** ** The signature classifier *)

Lemma dd_incr_lookup m k k' :
  dd_incr m k !! k' = if decide (k' = k) then Some (counter m k + 1) else m !! k'.
Proof.
  unfold dd_incr, dd_get, counter.
  destruct (m !! k) eqn:E; simpl; case_decide; subst;
    rewrite ?lookup_insert_eq, ?lookup_insert_ne by done; done.
Qed.

Lemma counter_dd_incr m k : counter (dd_incr m k) k = counter m k + 1.
Proof. unfold counter at 1. by rewrite dd_incr_lookup, decide_True. Qed.

(** C2, as the code has it. The three signatures are tested one after the
    other, each on its own: a counter of the packet's source goes up by one
    exactly when its signature matches, and the counters of other sources
    stay as they are.  SYN and HTTP need a TCP layer and ICMP needs an ICMP
    layer, so a packet with only one of the two layers that is not both a
    SYN-only segment and an HTTP-marker segment matches at most one. *)
Theorem C2_signature_counters (d : DoSDetector) (p : Packet) (src : string) :
  let d' := _check_attack_signatures d p src in
  counter (syn_flood_tracking d') src
  = counter (syn_flood_tracking d) src + (if syn_signature p then 1 else 0) ∧
  counter (http_flood_tracking d') src
  = counter (http_flood_tracking d) src + (if http_signature p then 1 else 0) ∧
  counter (icmp_flood_tracking d') src
  = counter (icmp_flood_tracking d) src + (if icmp_signature p then 1 else 0) ∧
  (∀ ip, ip ≠ src →
         syn_flood_tracking d' !! ip = syn_flood_tracking d !! ip ∧
         http_flood_tracking d' !! ip = http_flood_tracking d !! ip ∧
         icmp_flood_tracking d' !! ip = icmp_flood_tracking d !! ip) ∧
  (tcp_layer p = None → syn_signature p = false ∧ http_signature p = false) ∧
  (has_icmp p = false → icmp_signature p = false) ∧
  (tcp_layer p = None ∨ has_icmp p = false →
   syn_signature p && http_signature p = false →
   (signatures_matched p ≤ 1)%nat).
Proof.
  unfold _check_attack_signatures, signatures_matched. cbv zeta.
  split_and!.
  - destruct (syn_signature p), (http_signature p), (icmp_signature p); simpl;
      rewrite ?counter_dd_incr; lia.
  - destruct (syn_signature p), (http_signature p), (icmp_signature p); simpl;
      rewrite ?counter_dd_incr; lia.
  - destruct (syn_signature p), (http_signature p), (icmp_signature p); simpl;
      rewrite ?counter_dd_incr; lia.
  - intros ip Hne.
    destruct (syn_signature p), (http_signature p), (icmp_signature p); simpl;
      rewrite ?dd_incr_lookup, ?decide_False by done; done.
  - intros Htcp. unfold syn_signature, http_signature. by rewrite Htcp.
  - intros Hicmp. by unfold icmp_signature.
  - unfold syn_signature, http_signature, icmp_signature.
    intros [Htcp | Hicmp] Hboth.
    + rewrite Htcp. simpl. destruct (has_icmp p); simpl; lia.
    + rewrite Hicmp. unfold syn_signature, http_signature in Hboth.
      destruct (tcp_layer p) as [t|]; [|simpl; lia].
      set (syn := negb (Z.land (tcp_flags t) 2 =? 0) && (Z.land (tcp_flags t) 16 =? 0)) in *.
      destruct (raw_load p) as [load|].
      * set (http := (_ || _) && _) in *.
        destruct syn, http; simpl in *; try lia; done.
      * destruct syn; simpl; lia.
Qed.

(** An ICMP packet without a TCP layer: one signature at most. *)
Lemma C2_signature_counters_witness :
  (signatures_matched (mkPacket "10.0.0.4" None true None) ≤ 1)%nat.
Proof.
  pose proof (C2_signature_counters (init 10 10 false None)
                (mkPacket "10.0.0.4" None true None) "10.0.0.4")
    as (_ & _ & _ & _ & _ & _ & Hone).
  apply Hone; [by left | reflexivity].
Defined.

(** A SYN (ACK clear) to port 80 that carries ["GET / HTTP/1.1"] moves both
    the SYN and the HTTP counter of its source, here from 0 to 1 each. *)
Lemma C2_two_counters_counterexample :
  let d := init 1000 10 false None in
  let p := syn_http_pkt "10.0.0.5" in
  let d' := _check_attack_signatures d p "10.0.0.5" in
  counter (syn_flood_tracking d) "10.0.0.5" = 0 ∧
  counter (http_flood_tracking d) "10.0.0.5" = 0 ∧
  counter (syn_flood_tracking d') "10.0.0.5" = 1 ∧
  counter (http_flood_tracking d') "10.0.0.5" = 1 ∧
  signatures_matched p = 2%nat ∧
  ¬ (signatures_matched p ≤ 1)%nat.
Proof.
  cbv zeta. split_and!; try (vm_compute; reflexivity).
  vm_compute. lia.
Qed.

(** ** Duplicate suppression and the effects of an alert *)

(** C6. With an alert for [src] in the history that is younger than
    [time_window * 2] at the time of the trigger, [_trigger_alert] returns
    with the detector as it was (no alert added, no counter reset) and makes
    no call to the firewall or the API; when every alert for [src] in the
    history is at least [time_window * 2] old, the trigger adds its alert at
    the end of the history. *)
Theorem C6_duplicate_suppression (netsh_ok : Call → bool)
        (d : DoSDetector) (src : string) (count : Z) (ty : AttackType) (now : Z) :
  ((∃ a, a ∈ alert_history d ∧ src_ip a = src ∧ now - timestamp a < time_window d * 2) →
   _trigger_alert netsh_ok d src count ty now = (d, [])) ∧
  ((∀ a, a ∈ alert_history d → src_ip a = src → time_window d * 2 ≤ now - timestamp a) →
   last (alert_history (_trigger_alert netsh_ok d src count ty now).1)
   = Some (mkAlert now src count ty)).
Proof.
  split.
  - intros Hdup. apply trigger_suppressed. by apply recently_alerted_true.
  - intros Hold. apply recently_alerted_false in Hold.
    destruct (trigger_fires netsh_ok d src count ty now Hold) as (-> & _).
    apply last_deque_append.
Qed.

(** After the alert at 100 with a 10s window: a trigger at 119 is
    suppressed, a trigger at 120 fires. *)
Lemma C6_duplicate_suppression_witness :
  _trigger_alert always_ok d_alerted "10.0.0.6" 15 SynFlood 119 = (d_alerted, []) ∧
  last (alert_history (_trigger_alert always_ok d_alerted "10.0.0.6" 15 SynFlood 120).1)
  = Some (mkAlert 120 "10.0.0.6" 15 SynFlood).
Proof.
  split.
  - apply (C6_duplicate_suppression always_ok d_alerted "10.0.0.6" 15 SynFlood 119).
    exists (mkAlert 100 "10.0.0.6" 12 SynFlood).
    split; [apply list_elem_of_here | split; [reflexivity | vm_compute; reflexivity]].
  - apply (C6_duplicate_suppression always_ok d_alerted "10.0.0.6" 15 SynFlood 120).
    intros a [-> | []%elem_of_nil]%elem_of_cons _. vm_compute. discriminate.
Defined.

(** C7. An alert that is not suppressed goes to the end of the history,
    from which the oldest alert is dropped when 100 were held, so that the
    history stays within 100; the three counters of the source are set to
    zero; the timestamp windows are as before. *)
Theorem C7_alert_effects (netsh_ok : Call → bool)
        (d : DoSDetector) (src : string) (count : Z) (ty : AttackType) (now : Z) :
  recently_alerted d src now = false →
  (length (alert_history d) ≤ 100)%nat →
  let d' := (_trigger_alert netsh_ok d src count ty now).1 in
  alert_history d'
  = (if (length (alert_history d) <? 100)%nat then alert_history d
     else tail (alert_history d)) ++ [mkAlert now src count ty] ∧
  (length (alert_history d') ≤ 100)%nat ∧
  syn_flood_tracking d' !! src = Some 0 ∧
  http_flood_tracking d' !! src = Some 0 ∧
  icmp_flood_tracking d' !! src = Some 0 ∧
  packet_timestamps d' = packet_timestamps d.
Proof.
  intros Hrec Hlen d'.
  destruct (trigger_fires netsh_ok d src count ty now Hrec) as (Hh & Hw & Hs & Hht & Hi & _).
  fold d' in Hh, Hw, Hs, Hht, Hi. unfold HISTORY_MAXLEN in Hh.
  split_and!.
  - rewrite Hh, deque_append_cases. by case_match.
  - rewrite Hh. by apply length_deque_append.
  - rewrite Hs. apply lookup_insert_eq.
  - rewrite Hht. apply lookup_insert_eq.
  - rewrite Hi. apply lookup_insert_eq.
  - exact Hw.
Qed.

Lemma C7_alert_effects_witness :
  let d' := (_trigger_alert always_ok d_alerted "10.0.0.7" 9 SynFlood 119).1 in
  syn_flood_tracking d' !! "10.0.0.7"%string = Some 0 ∧
  packet_timestamps d' = packet_timestamps d_alerted.
Proof.
  destruct (C7_alert_effects always_ok d_alerted "10.0.0.7" 9 SynFlood 119)
    as (_ & _ & Hs & _ & _ & Hw); [reflexivity | simpl; lia |].
  split; [exact Hs | exact Hw].
Defined.

(** ** The maintenance sweep *)

Lemma swept_entry_idemp win now o :
  swept_entry win now (swept_entry win now o) = swept_entry win now o.
Proof.
  destruct o as [l|]; [|done]. simpl.
  destruct (filter _ l) as [|x l'] eqn:E; [done|].
  unfold swept_entry. rewrite <- E.
  rewrite list_filter_filter.
  rewrite (list_filter_iff _ (λ ts, now - ts ≤ win)) by tauto.
  by rewrite E.
Qed.

Lemma sweep_ip_time_window now d a : time_window (sweep_ip now d a) = time_window d.
Proof.
  unfold sweep_ip, _clean_old_timestamps, dd_get. repeat case_match; simplify_eq/=; done.
Qed.

Lemma sweep_ip_timestamps now d a ip :
  packet_timestamps (sweep_ip now d a) !! ip
  = if decide (ip = a) then swept_entry (time_window d) now (packet_timestamps d !! a)
    else packet_timestamps d !! ip.
Proof.
  unfold sweep_ip, _clean_old_timestamps, dd_get, swept_entry.
  destruct (packet_timestamps d !! a) as [l|] eqn:E; simpl.
  - rewrite lookup_insert_eq.
    destruct (filter _ l) as [|x l'] eqn:F; simpl; case_decide; subst;
      rewrite ?lookup_delete_eq, ?lookup_delete_ne, ?lookup_insert_eq, ?lookup_insert_ne
        by done; done.
  - rewrite E. simpl. case_decide; subst;
      rewrite ?lookup_delete_eq, ?lookup_delete_ne, ?lookup_insert_ne by done; done.
Qed.

Ltac sweep_ip_counter :=
  intros d a ip;
  unfold sweep_ip, _clean_old_timestamps, dd_get, swept_entry;
  destruct (packet_timestamps d !! a) as [l|] eqn:E; simpl;
  [ rewrite lookup_insert_eq;
    destruct (filter _ l) as [|x l'] eqn:F; simpl; case_decide; subst;
    rewrite ?lookup_delete_eq, ?lookup_delete_ne by done; done
  | rewrite E; simpl; case_decide; subst;
    rewrite ?lookup_delete_eq, ?lookup_delete_ne by done; done ].

Lemma swept_along_counts now : swept_along now packet_counts.
Proof. sweep_ip_counter. Qed.

Lemma swept_along_syn now : swept_along now syn_flood_tracking.
Proof. sweep_ip_counter. Qed.

Lemma swept_along_http now : swept_along now http_flood_tracking.
Proof. sweep_ip_counter. Qed.

Lemma swept_along_icmp now : swept_along now icmp_flood_tracking.
Proof. sweep_ip_counter. Qed.

Lemma sweep_keys_time_window now keys d :
  time_window (sweep_keys now d keys) = time_window d.
Proof.
  unfold sweep_keys. revert d. induction keys as [|a keys IH]; intros d; [done|].
  simpl. by rewrite IH, sweep_ip_time_window.
Qed.

Lemma sweep_keys_timestamps now keys d ip :
  packet_timestamps (sweep_keys now d keys) !! ip
  = if decide (ip ∈ keys) then swept_entry (time_window d) now (packet_timestamps d !! ip)
    else packet_timestamps d !! ip.
Proof.
  unfold sweep_keys. revert d. induction keys as [|a keys IH]; intros d.
  - by rewrite decide_False by apply not_elem_of_nil.
  - cbn [foldl]. rewrite IH, sweep_ip_time_window, sweep_ip_timestamps.
    destruct (decide (ip = a)) as [->|Hne].
    + rewrite (decide_True (P := a ∈ a :: keys)) by apply list_elem_of_here.
      case_decide; [apply swept_entry_idemp | done].
    + destruct (decide (ip ∈ keys)) as [Hin|Hnin].
      * by rewrite decide_True by by apply list_elem_of_further.
      * by rewrite decide_False by (rewrite elem_of_cons; tauto).
Qed.

Lemma sweep_keys_counter now f keys d ip :
  swept_along now f →
  f (sweep_keys now d keys) !! ip
  = if decide (ip ∈ keys)
    then (match swept_entry (time_window d) now (packet_timestamps d !! ip) with
          | None => None
          | Some _ => f d !! ip
          end)
    else f d !! ip.
Proof.
  intros Hf. unfold sweep_keys. revert d. induction keys as [|a keys IH]; intros d.
  - by rewrite decide_False by apply not_elem_of_nil.
  - cbn [foldl]. rewrite IH, sweep_ip_time_window, sweep_ip_timestamps, Hf.
    destruct (decide (ip = a)) as [->|Hne].
    + rewrite (decide_True (P := a ∈ a :: keys)) by apply list_elem_of_here.
      case_decide.
      * rewrite swept_entry_idemp. by case_match.
      * done.
    + destruct (decide (ip ∈ keys)) as [Hin|Hnin].
      * by rewrite decide_True by by apply list_elem_of_further.
      * by rewrite decide_False by (rewrite elem_of_cons; tauto).
Qed.

Lemma elem_of_tracked_keys d ip :
  ip ∈ tracked_keys d ↔ is_Some (packet_timestamps d !! ip).
Proof.
  unfold tracked_keys. rewrite list_elem_of_fmap. split.
  - intros ([k l] & -> & Hin). apply elem_of_map_to_list in Hin. by exists l.
  - intros [l Hl]. exists (ip, l). split; [done|]. by apply elem_of_map_to_list.
Qed.

Lemma swept_entry_pruned_window d ip now :
  swept_entry (time_window d) now (packet_timestamps d !! ip)
  = match pruned_window d ip now with
    | [] => None
    | l' => Some l'
    end.
Proof. unfold pruned_window, window, swept_entry. by destruct (packet_timestamps d !! ip). Qed.

Lemma maintenance_sweep_timestamps d now ip :
  packet_timestamps (maintenance_sweep d now) !! ip
  = swept_entry (time_window d) now (packet_timestamps d !! ip).
Proof.
  unfold maintenance_sweep. rewrite sweep_keys_timestamps. case_decide as Hin; [done|].
  rewrite elem_of_tracked_keys in Hin.
  destruct (packet_timestamps d !! ip) eqn:E; [|done]. destruct Hin. by eexists.
Qed.

Lemma maintenance_sweep_counter d now f ip :
  swept_along now f →
  is_Some (packet_timestamps d !! ip) →
  f (maintenance_sweep d now) !! ip
  = match pruned_window d ip now with
    | [] => None
    | _ => f d !! ip
    end.
Proof.
  intros Hf Htracked. unfold maintenance_sweep.
  rewrite (sweep_keys_counter _ _ _ _ _ Hf), decide_True by by apply elem_of_tracked_keys.
  rewrite swept_entry_pruned_window. by destruct (pruned_window d ip now).
Qed.

(** C8. After a sweep at [now]: a tracked source whose pruned window is
    empty has no entry left in the timestamp dict, the packet counts or any
    of the three signature dicts; every source that still has an entry has
    its pruned window there, which is not empty and holds no timestamp older
    than [now - time_window]; and a tracked source with a non-empty pruned
    window keeps its counts. *)
Theorem C8_sweep_evicts_empty_sources (d : DoSDetector) (now : Z) :
  let d' := maintenance_sweep d now in
  (∀ ip, is_Some (packet_timestamps d !! ip) → pruned_window d ip now = [] →
         packet_timestamps d' !! ip = None ∧ packet_counts d' !! ip = None ∧
         syn_flood_tracking d' !! ip = None ∧ http_flood_tracking d' !! ip = None ∧
         icmp_flood_tracking d' !! ip = None) ∧
  (∀ ip l', packet_timestamps d' !! ip = Some l' →
            l' ≠ [] ∧ l' = pruned_window d ip now ∧
            (∀ ts, ts ∈ l' → ¬ ts < now - time_window d)) ∧
  (∀ ip, is_Some (packet_timestamps d !! ip) → pruned_window d ip now ≠ [] →
         packet_timestamps d' !! ip = Some (pruned_window d ip now) ∧
         packet_counts d' !! ip = packet_counts d !! ip ∧
         syn_flood_tracking d' !! ip = syn_flood_tracking d !! ip ∧
         http_flood_tracking d' !! ip = http_flood_tracking d !! ip ∧
         icmp_flood_tracking d' !! ip = icmp_flood_tracking d !! ip).
Proof.
  intros d'. unfold d'. split_and!.
  - intros ip Htr Hempty.
    rewrite maintenance_sweep_timestamps, swept_entry_pruned_window.
    rewrite !maintenance_sweep_counter
      by first [apply swept_along_counts | apply swept_along_syn
               | apply swept_along_http | apply swept_along_icmp | done].
    by rewrite Hempty.
  - intros ip l'. rewrite maintenance_sweep_timestamps, swept_entry_pruned_window.
    destruct (pruned_window d ip now) as [|x l0] eqn:E; [done|].
    intros [= <-]. split_and!; [done | done |].
    intros ts Hts. rewrite <- E in Hts. unfold pruned_window in Hts.
    apply list_elem_of_filter in Hts as [Hts _]. lia.
  - intros ip Htr Hne.
    rewrite maintenance_sweep_timestamps, swept_entry_pruned_window.
    rewrite !maintenance_sweep_counter
      by first [apply swept_along_counts | apply swept_along_syn
               | apply swept_along_http | apply swept_along_icmp | done].
    by destruct (pruned_window d ip now).
Qed.

(** At time 60 with a 10s window, ["10.0.0.8"] (last seen at 4) is gone
    from every dict and ["10.0.0.9"] is left with the timestamp 55. *)
Lemma C8_sweep_witness :
  let d' := maintenance_sweep d_stale 60 in
  (packet_timestamps d' !! "10.0.0.8"%string = None ∧
   packet_counts d' !! "10.0.0.8"%string = None ∧
   icmp_flood_tracking d' !! "10.0.0.8"%string = None) ∧
  packet_timestamps d' !! "10.0.0.9"%string = Some [55].
Proof.
  destruct (C8_sweep_evicts_empty_sources d_stale 60) as (Hgone & _ & Hkept).
  split.
  - destruct (Hgone "10.0.0.8"%string) as (H1 & H2 & _ & _ & H5).
    + exists [3; 4]. vm_compute. reflexivity.
    + vm_compute. reflexivity.
    + split; [exact H1 | split; [exact H2 | exact H5]].
  - destruct (Hkept "10.0.0.9"%string) as (H1 & _).
    + exists [3; 55]. vm_compute. reflexivity.
    + vm_compute. discriminate.
    + rewrite H1. vm_compute. reflexivity.
Defined.

(** ** Unblocking on [stop] *)

Section StopFacts.

Context (netsh_ok : Call → bool).

(** While every unblock fails the loop goes on: each listed source that
    is blocked gets its [netsh] call, the blocked set stays as it is and
    [stop] returns. *)
Lemma stop_loop_all_fail d ips :
  (∀ ip, ip ∈ ips → ip ∈ blocked_ips d ∧ netsh_ok (NetshDeleteRule ip) = false) →
  stop_loop netsh_ok (size (blocked_ips d)) d ips
  = (d, NetshDeleteRule <$> ips, Returned).
Proof.
  induction ips as [|ip ips IH]; intros Hall; simpl.
  - by rewrite Nat.eqb_refl.
  - rewrite Nat.eqb_refl. simpl.
    destruct (Hall ip) as [Hin Hfail]; [apply list_elem_of_here|].
    unfold _unblock_ip. rewrite decide_True, Hfail by done.
    rewrite IH; [done|]. intros ip' Hin'. apply Hall. by apply list_elem_of_further.
Qed.

(** The first unblock that succeeds shrinks the set under the iterator:
    the next step of the loop raises, whatever is still to come. *)
Lemma stop_loop_first_success d ip rest :
  ip ∈ blocked_ips d →
  netsh_ok (NetshDeleteRule ip) = true →
  stop_loop netsh_ok (size (blocked_ips d)) d (ip :: rest)
  = (set_blocked_ips (blocked_ips d ∖ {[ip]}) d, [NetshDeleteRule ip], RuntimeError).
Proof.
  intros Hin Hok. simpl. rewrite Nat.eqb_refl. simpl.
  unfold _unblock_ip. rewrite decide_True, Hok by done.
  assert (Hsize : size (blocked_ips d ∖ {[ip]}) ≠ size (blocked_ips d)).
  { rewrite size_difference by set_solver. rewrite size_singleton.
    assert (size (blocked_ips d) ≠ 0)%nat by (apply size_non_empty_iff; set_solver). lia. }
  destruct rest; simpl; by rewrite (proj2 (Nat.eqb_neq _ _) Hsize).
Qed.

(** [stop] with enforcement on, a non-empty blocked set and a firewall
    that accepts every delete: one rule is deleted, then the loop raises. *)
Lemma stop_raises_after_first_success d :
  block_ips d = true →
  blocked_ips d ≠ ∅ →
  (∀ ip, ip ∈ blocked_ips d → netsh_ok (NetshDeleteRule ip) = true) →
  ∃ ip, ip ∈ blocked_ips d ∧
        stop netsh_ok d
        = (set_blocked_ips (blocked_ips d ∖ {[ip]}) (set_running false d),
           [NetshDeleteRule ip], RuntimeError).
Proof.
  intros Hblk Hne Hok. unfold stop. simpl block_ips. simpl blocked_ips.
  rewrite Hblk, bool_decide_eq_false_2 by done. simpl negb. cbn [andb].
  destruct (elements (blocked_ips d)) as [|ip rest] eqn:E.
  - apply elements_empty_inv in E. apply leibniz_equiv in E. done.
  - assert (Hin : ip ∈ blocked_ips d)
      by (apply elem_of_elements; rewrite E; apply list_elem_of_here).
    exists ip. split; [done|].
    pose proof (stop_loop_first_success (set_running false d) ip rest Hin (Hok ip Hin))
      as Hloop.
    simpl blocked_ips in Hloop. by rewrite Hloop.
Qed.

End StopFacts.

(** C9, on the code. With enforcement on, two sources blocked and a
    firewall that accepts every command, [stop] deletes the rule of one
    source and then ends with [RuntimeError]: the other source is never
    tried and stays in the blocked set. *)
Theorem C9_stop_aborts_after_first_unblock :
  stop always_ok d_blocked
  = (set_running false (set_blocked_ips {[ "2.2.2.2"%string ]} d_blocked),
     [NetshDeleteRule "1.1.1.1"], RuntimeError).
Proof. vm_compute. reflexivity. Qed.

(** ** The bounded history and suppression *)

(** C10. An alert for ["10.0.0.1"] at time 0, then one alert for each of a
    hundred other sources at time 1, then a trigger for ["10.0.0.1"] at time
    2: with a 10s window only 2 of the 20 seconds of suppression have
    passed, but the first alert is no longer in the history and a second one
    is recorded. *)
Theorem C10_bounded_history_forgets :
  ∃ (d : DoSDetector) (x : string) (others : list string) (t0 t1 t2 : Z),
    let d1 := (_trigger_alert always_ok d x 1000 GeneralDoS t0).1 in
    let d2 := trigger_all always_ok d1 others 1000 GeneralDoS t1 in
    let d3 := (_trigger_alert always_ok d2 x 1000 GeneralDoS t2).1 in
    (x ∉ others) ∧
    alert_history d1 = [mkAlert t0 x 1000 GeneralDoS] ∧
    (100 ≤ length others)%nat ∧
    src_ip <$> alert_history d2 = others ∧
    (t0 ≤ t1 ≤ t2) ∧ t2 - t0 < time_window d2 * 2 ∧
    last (alert_history d3) = Some (mkAlert t2 x 1000 GeneralDoS).
Proof.
  exists (init 1000 10 false None), "10.0.0.1"%string, flood_sources, 0, 1, 2.
  cbv zeta. split_and!.
  - apply (bool_decide_unpack _). vm_compute. exact I.
  - vm_compute. reflexivity.
  - vm_compute. lia.
  - vm_compute. reflexivity.
  - lia.
  - lia.
  - vm_compute. reflexivity.
  - vm_compute. reflexivity.
Qed.

(** * Further properties of the detector *)

(** ** Enforcement *)

Section EnforcementFacts.

Context (netsh_ok : Call → bool).

(** X1. Two calls of [_block_ip] for one source, the firewall answering
    the first command by [first_ok] and the second by [second_ok]: once the
    source is in the blocked set, before the first call or through its
    command, the second call is a no-op without a command; when the first
    command failed the second call runs the command again, with its own
    outcome, as if it were the first.  So the second call makes a command
    only for a source that was not blocked and whose first command failed,
    and the source ends up blocked exactly when it was blocked before or one
    of the commands that ran succeeded. *)
Theorem X1_block_ip_twice (first_ok second_ok : Call → bool) (d : DoSDetector) (ip : string) :
  let r1 := _block_ip first_ok d ip in
  let r2 := _block_ip second_ok r1.1 ip in
  (ip ∈ blocked_ips r1.1 → r2 = (r1.1, [])) ∧
  ((ip ∉ blocked_ips d) → first_ok (NetshAddRule ip) = false →
   r1 = (d, [NetshAddRule ip]) ∧ r2 = _block_ip second_ok d ip) ∧
  r2.2 = (if decide (ip ∈ blocked_ips d) then []
          else if first_ok (NetshAddRule ip) then [] else [NetshAddRule ip]) ∧
  (ip ∈ blocked_ips r2.1 ↔
   ip ∈ blocked_ips d ∨ first_ok (NetshAddRule ip) = true ∨
   second_ok (NetshAddRule ip) = true).
Proof.
  unfold _block_ip. destruct (decide (ip ∈ blocked_ips d)) as [Hin|Hnin]; simpl.
  - rewrite decide_True by done. simpl. split_and!; try done. tauto.
  - destruct (first_ok (NetshAddRule ip)) eqn:Hok1; simpl.
    + assert (Hin1 : ip ∈ {[ip]} ∪ blocked_ips d)
        by (apply elem_of_union_l; by apply elem_of_singleton).
      rewrite decide_True by done. simpl. split_and!; try done. tauto.
    + rewrite decide_False by done.
      destruct (second_ok (NetshAddRule ip)) eqn:Hok2; simpl.
      * split_and!; try done. split; [tauto|]. intros _.
        apply elem_of_union_l. by apply elem_of_singleton.
      * split_and!; try done. split; [tauto|]. intros [?|[?|?]]; done.
Qed.

(** X2. Blocking a source that was not blocked and unblocking it again,
    both commands succeeding, gives the detector back as it was. *)
Theorem X2_block_unblock_round_trip (d : DoSDetector) (ip : string) :
  ip ∉ blocked_ips d →
  netsh_ok (NetshAddRule ip) = true →
  netsh_ok (NetshDeleteRule ip) = true →
  _unblock_ip netsh_ok (_block_ip netsh_ok d ip).1 ip = (d, [NetshDeleteRule ip]).
Proof.
  intros Hnin Hadd Hdel. unfold _block_ip. rewrite decide_False, Hadd by done. simpl.
  unfold _unblock_ip. simpl blocked_ips.
  rewrite decide_True by (apply elem_of_union_l; by apply elem_of_singleton).
  rewrite Hdel.
  f_equal. destruct d as [thr win blk api pc pt sy ht ic bl rn ah]; simpl in *.
  unfold set_blocked_ips; simpl. f_equal.
  apply set_eq. intros x. rewrite elem_of_difference, elem_of_union, elem_of_singleton.
  split; [intros [[->|?] ?]; done | intros ?; split; [by right | by intros ->]].
Qed.

(** The calls of a firing alert and the blocked set after it. *)
Lemma trigger_alert_outside (d : DoSDetector) (src : string) (count : Z)
      (ty : AttackType) (now : Z) :
  recently_alerted d src now = false →
  let r := _trigger_alert netsh_ok d src count ty now in
  r.2 = (if block_ips d
         then (if decide (src ∈ blocked_ips d) then [] else [NetshAddRule src])
         else [])
        ++ (match api_url d with
            | Some (String c u) =>
                [PostReport (String.append (String c u) "/api/report-attack")
                   (mkReport src "windows-firewall" (api_attack_type (attack_label ty))
                      count (time_window d))]
            | _ => []
            end) ∧
  blocked_ips r.1
  = (if block_ips d && netsh_ok (NetshAddRule src)
     then {[src]} ∪ blocked_ips d else blocked_ips d).
Proof.
  intros Hrec. unfold _trigger_alert. rewrite Hrec. simpl block_ips.
  unfold report_if_configured, _report_to_api, _block_ip.
  destruct (block_ips d); simpl.
  - destruct (decide (src ∈ blocked_ips d)) as [Hin|Hnin]; simpl.
    + split; [by destruct (api_url d) as [[|c u]|] | ].
      destruct (netsh_ok (NetshAddRule src)); [|done].
      symmetry. apply subseteq_union_1_L. by apply singleton_subseteq_l.
    + destruct (netsh_ok (NetshAddRule src)); simpl;
        (split; [by destruct (api_url d) as [[|c u]|] | done]).
  - split; [by destruct (api_url d) as [[|c u]|] | done].
Qed.

(** X3. What a firing alert does outside the detector and to the blocked
    set: with enforcement on and the source not yet blocked, one add-rule
    command, and the source joins the blocked set only when that command
    succeeds; with a non-empty API URL, one report to
    [<url>/api/report-attack] that carries the source, the lower-cased label
    without blanks, the count and the window length; nothing else. *)
Theorem X3_alert_calls_and_blocking (d : DoSDetector) (src : string) (count : Z)
        (ty : AttackType) (now : Z) :
  recently_alerted d src now = false →
  let r := _trigger_alert netsh_ok d src count ty now in
  r.2 = (if block_ips d
         then (if decide (src ∈ blocked_ips d) then [] else [NetshAddRule src])
         else [])
        ++ (match api_url d with
            | Some (String c u) =>
                [PostReport (String.append (String c u) "/api/report-attack")
                   (mkReport src "windows-firewall" (api_attack_type (attack_label ty))
                      count (time_window d))]
            | _ => []
            end) ∧
  blocked_ips r.1
  = (if block_ips d && netsh_ok (NetshAddRule src)
     then {[src]} ∪ blocked_ips d else blocked_ips d).
Proof. apply trigger_alert_outside. Qed.

End EnforcementFacts.

(** ** What one turn of the processor does to the tracking dicts *)

Lemma dd_append_lookup m k x k' :
  dd_append m k x !! k'
  = if decide (k' = k) then Some (default [] (m !! k) ++ [x]) else m !! k'.
Proof.
  unfold dd_append, dd_get.
  destruct (m !! k) eqn:E; simpl; case_decide; subst;
    rewrite ?lookup_insert_eq, ?lookup_insert_ne by done; done.
Qed.

Lemma touched_lookup src m m' ip :
  touched src m m' → ip ≠ src → m' !! ip = m !! ip.
Proof. intros [-> | [_ ->]] Hne; [done|]. by rewrite lookup_insert_ne. Qed.

Lemma touched_counter src m m' ip : touched src m m' → counter m' ip = counter m ip.
Proof.
  intros [-> | [Hnone ->]]; [done|]. unfold counter.
  destruct (decide (ip = src)) as [->|Hne].
  - by rewrite lookup_insert_eq, Hnone.
  - by rewrite lookup_insert_ne.
Qed.

Lemma touched_is_Some src m m' ip :
  touched src m m' → is_Some (m' !! ip) → ip = src ∨ is_Some (m !! ip).
Proof.
  intros Ht Hs. destruct (decide (ip = src)) as [->|Hne]; [by left|].
  right. by rewrite <- (touched_lookup src m m' ip Ht Hne).
Qed.

(** The dicts after the threshold chain: the window of [src] pruned, the
    three counter dicts read at [src]. *)
Lemma threshold_decision_state d src now :
  let d' := (threshold_decision d src now).2 in
  packet_timestamps d' = <[src := pruned_window d src now]> (packet_timestamps d) ∧
  touched src (syn_flood_tracking d) (syn_flood_tracking d') ∧
  touched src (http_flood_tracking d) (http_flood_tracking d') ∧
  touched src (icmp_flood_tracking d) (icmp_flood_tracking d') ∧
  running d' = running d.
Proof.
  unfold threshold_decision, _determine_attack_type, _clean_old_timestamps, dd_get,
    pruned_window, window, touched.
  destruct d as [thr win blk api pc pt sy ht ic bl rn ah]. cbn -[Z.div Z.leb Z.ltb filter].
  destruct (pt !! src) eqn:E; cbn -[Z.div Z.leb Z.ltb filter];
    rewrite ?lookup_insert_eq, ?E; cbn -[Z.div Z.leb Z.ltb filter];
    destruct (sy !! src) eqn:Es, (ht !! src) eqn:Eh, (ic !! src) eqn:Ei;
    cbn -[Z.div Z.leb Z.ltb filter];
    repeat (match goal with
            | |- context [if ?b then _ else _] => destruct b
            end; cbn -[Z.div Z.leb Z.ltb filter]);
    split_and!; auto.
Qed.

Section ProcessorFacts.

Context (netsh_ok : Call → bool).
Context (_is_private_ip : string → bool) (PROCESS_PRIVATE_IPS : bool).

Lemma block_ip_rest d ip :
  let d' := (_block_ip netsh_ok d ip).1 in
  packet_counts d' = packet_counts d ∧ threshold d' = threshold d ∧
  block_ips d' = block_ips d ∧ running d' = running d.
Proof. unfold _block_ip. repeat case_match; done. Qed.

(** The dicts after [_trigger_alert], suppressed or not. *)
Lemma trigger_alert_state d src count ty now :
  let d' := (_trigger_alert netsh_ok d src count ty now).1 in
  packet_timestamps d' = packet_timestamps d ∧
  packet_counts d' = packet_counts d ∧
  time_window d' = time_window d ∧ threshold d' = threshold d ∧
  running d' = running d ∧
  (if recently_alerted d src now
   then d' = d
   else syn_flood_tracking d' = <[src := 0]> (syn_flood_tracking d) ∧
        http_flood_tracking d' = <[src := 0]> (http_flood_tracking d) ∧
        icmp_flood_tracking d' = <[src := 0]> (icmp_flood_tracking d) ∧
        alert_history d'
        = deque_append HISTORY_MAXLEN (alert_history d) (mkAlert now src count ty)).
Proof.
  unfold _trigger_alert. destruct (recently_alerted d src now) eqn:Hrec; [done|].
  simpl block_ips. set (d1 := set_alert_history _ d).
  destruct (block_ips d).
  - pose proof (block_ip_frame netsh_ok d1 src) as Hf.
    pose proof (block_ip_rest d1 src) as Hr. cbv zeta in Hf, Hr.
    destruct (_block_ip netsh_ok d1 src) as [d2 c1]. simpl in *.
    destruct Hf as (-> & -> & -> & -> & -> & _ & ->).
    destruct Hr as (-> & -> & _ & ->). done.
  - done.
Qed.

Lemma check_attack_signatures_frame d p src :
  let d' := _check_attack_signatures d p src in
  packet_timestamps d' = packet_timestamps d ∧ packet_counts d' = packet_counts d ∧
  time_window d' = time_window d ∧ threshold d' = threshold d ∧
  alert_history d' = alert_history d ∧ blocked_ips d' = blocked_ips d ∧
  running d' = running d.
Proof.
  unfold _check_attack_signatures.
  destruct (syn_signature p), (http_signature p), (icmp_signature p); done.
Qed.

Lemma check_attack_signatures_lookup d p src ip :
  let d' := _check_attack_signatures d p src in
  syn_flood_tracking d' !! ip
  = (if syn_signature p then dd_incr (syn_flood_tracking d) src else syn_flood_tracking d) !! ip ∧
  http_flood_tracking d' !! ip
  = (if http_signature p then dd_incr (http_flood_tracking d) src
     else http_flood_tracking d) !! ip ∧
  icmp_flood_tracking d' !! ip
  = (if icmp_signature p then dd_incr (icmp_flood_tracking d) src
     else icmp_flood_tracking d) !! ip.
Proof.
  unfold _check_attack_signatures.
  destruct (syn_signature p), (http_signature p), (icmp_signature p); done.
Qed.

Lemma process_packet_cases d p now t :
  process_packet netsh_ok _is_private_ip PROCESS_PRIVATE_IPS d p now t = (d, []) ∨
  ((ip_src p ∉ blocked_ips d) ∧
   process_packet netsh_ok _is_private_ip PROCESS_PRIVATE_IPS d p now t
   = _check_thresholds netsh_ok (recorded d p now) (ip_src p) now t).
Proof.
  unfold process_packet, recorded.
  destruct (_ && _); [by left|]. case_decide; [by left | by right].
Qed.

End ProcessorFacts.

Section ProcessorEffects.

Context (netsh_ok : Call → bool).
Context (_is_private_ip : string → bool) (PROCESS_PRIVATE_IPS : bool).

(** The detector after [_check_thresholds], dict by dict. *)
Lemma check_thresholds_state d src now t :
  let d' := (_check_thresholds netsh_ok d src now t).1 in
  packet_timestamps d' = <[src := pruned_window d src now]> (packet_timestamps d) ∧
  packet_counts d' = packet_counts d ∧
  (∀ ip, syn_flood_tracking d' !! ip = syn_flood_tracking d !! ip ∨
         (ip = src ∧ syn_flood_tracking d' !! ip = Some 0)) ∧
  (∀ ip, http_flood_tracking d' !! ip = http_flood_tracking d !! ip ∨
         (ip = src ∧ http_flood_tracking d' !! ip = Some 0)) ∧
  (∀ ip, icmp_flood_tracking d' !! ip = icmp_flood_tracking d !! ip ∨
         (ip = src ∧ icmp_flood_tracking d' !! ip = Some 0)) ∧
  (alert_history d' = alert_history d ∨
   (recently_alerted d src t = false ∧
    ∃ count ty, alert_history d'
                = deque_append HISTORY_MAXLEN (alert_history d) (mkAlert t src count ty))) ∧
  time_window d' = time_window d ∧ threshold d' = threshold d ∧ running d' = running d.
Proof.
  unfold _check_thresholds.
  pose proof (threshold_decision_state d src now) as (Hpt & Hs & Hh & Hi & Hrun).
  pose proof (threshold_decision_frame d src now) as (Hah & Hwin & Hthr & _ & _ & _ & Hpc).
  destruct (threshold_decision d src now) as [r d1]. simpl in *.
  assert (Hlk : ∀ m m' : gmap string Z, touched src m m' →
                ∀ ip, m' !! ip = m !! ip ∨ (ip = src ∧ m' !! ip = Some 0)).
  { intros m m' [-> | [Hnone ->]] ip; [by left|].
    destruct (decide (ip = src)) as [->|Hne].
    - right. by rewrite lookup_insert_eq.
    - left. by rewrite lookup_insert_ne. }
  destruct r as [[count ty]|]; simpl.
  - pose proof (trigger_alert_state netsh_ok d1 src count ty t)
      as (Hpt' & Hpc' & Hwin' & Hthr' & Hrun' & Hcase).
    assert (Hrec : recently_alerted d1 src t = recently_alerted d src t)
      by (unfold recently_alerted; by rewrite Hah, Hwin).
    rewrite Hrec in Hcase.
    destruct (_trigger_alert netsh_ok d1 src count ty t) as [d2 c]. simpl in *.
    rewrite Hpt', Hpc', Hwin', Hthr', Hrun', Hpt, Hpc, Hwin, Hthr, Hrun.
    destruct (recently_alerted d src t).
    + subst d2. rewrite Hah. split_and!; auto.
    + destruct Hcase as (-> & -> & -> & ->). rewrite Hah.
      assert (Hz : ∀ (m : gmap string Z) ip,
                 <[src := 0]> m !! ip = m !! ip ∨ (ip = src ∧ <[src := 0]> m !! ip = Some 0)).
      { intros m ip. destruct (decide (ip = src)) as [->|Hne].
        - right. by rewrite lookup_insert_eq.
        - left. by rewrite lookup_insert_ne. }
      split_and!; try done.
      * intros ip. destruct (Hz (syn_flood_tracking d1) ip) as [Hz1|Hz1]; [|by right].
        rewrite Hz1. by apply Hlk.
      * intros ip. destruct (Hz (http_flood_tracking d1) ip) as [Hz1|Hz1]; [|by right].
        rewrite Hz1. by apply Hlk.
      * intros ip. destruct (Hz (icmp_flood_tracking d1) ip) as [Hz1|Hz1]; [|by right].
        rewrite Hz1. by apply Hlk.
      * right. split; [done|]. by exists count, ty.
  - rewrite Hpt, Hpc, Hah, Hwin, Hthr, Hrun. split_and!; auto.
Qed.

Lemma recorded_frame d p now :
  time_window (recorded d p now) = time_window d ∧
  threshold (recorded d p now) = threshold d ∧
  alert_history (recorded d p now) = alert_history d ∧
  running (recorded d p now) = running d ∧
  packet_timestamps (recorded d p now) = dd_append (packet_timestamps d) (ip_src p) now ∧
  packet_counts (recorded d p now) = dd_incr (packet_counts d) (ip_src p).
Proof.
  unfold recorded. cbv zeta.
  match goal with |- context [_check_attack_signatures ?d2 p ?src] =>
    pose proof (check_attack_signatures_frame d2 p src) as (-> & -> & -> & -> & -> & _ & ->)
  end. done.
Qed.

Lemma same_at_recorded d p now ip : ip ≠ ip_src p → same_at ip d (recorded d p now).
Proof.
  intros Hne. destruct (recorded_frame d p now) as (_ & _ & _ & _ & Hpt & Hpc).
  unfold same_at. rewrite Hpt, Hpc, dd_append_lookup, dd_incr_lookup, !decide_False by done.
  unfold recorded. cbv zeta.
  match goal with |- context [_check_attack_signatures ?d2 p ?src] =>
    pose proof (check_attack_signatures_lookup d2 p src ip) as (-> & -> & ->)
  end.
  simpl. destruct (syn_signature p), (http_signature p), (icmp_signature p);
    rewrite ?dd_incr_lookup, ?decide_False by done; done.
Qed.

(** Other sources and the history after one turn of the processor. *)
Lemma process_packet_per_source (d : DoSDetector) (p : Packet) (now t : Z) :
  let d' := (process_packet netsh_ok _is_private_ip PROCESS_PRIVATE_IPS d p now t).1 in
  (∀ ip, ip ≠ ip_src p → same_at ip d d') ∧
  (∀ a, a ∈ alert_history d' → a ∈ alert_history d ∨ src_ip a = ip_src p).
Proof.
  destruct (process_packet_cases netsh_ok _is_private_ip PROCESS_PRIVATE_IPS d p now t)
    as [-> | [_ ->]]; simpl.
  - split; [by intros ip _ | by left].
  - pose proof (check_thresholds_state (recorded d p now) (ip_src p) now t)
      as (Hpt & Hpc & Hs & Hh & Hi & Hah & _).
    destruct (recorded_frame d p now) as (_ & _ & Hah0 & _).
    split.
    + intros ip Hne. pose proof (same_at_recorded d p now ip Hne) as (R1 & R2 & R3 & R4 & R5).
      unfold same_at. rewrite Hpt, Hpc, lookup_insert_ne by done.
      split_and!; try done.
      * destruct (Hs ip) as [->|[? _]]; done.
      * destruct (Hh ip) as [->|[? _]]; done.
      * destruct (Hi ip) as [->|[? _]]; done.
    + intros a Hin. rewrite Hah0 in Hah. destruct Hah as [Hsame | (_ & c & ty & Happ)].
      * left. by rewrite <- Hsame.
      * rewrite Happ in Hin. unfold HISTORY_MAXLEN in Hin.
        rewrite deque_append_cases in Hin.
        assert (Hin' : a ∈ alert_history d ++ [mkAlert t (ip_src p) c ty]).
        { destruct (length (alert_history d) <? 100)%nat; [done|].
          apply elem_of_app in Hin as [Hin|Hin]; apply elem_of_app; [left|by right].
          destruct (alert_history d); [done|]. by apply list_elem_of_further. }
        apply elem_of_app in Hin' as [?|Hin']; [by left|].
        apply list_elem_of_singleton in Hin' as ->. by right.
Qed.

(** X5. A packet of one source leaves the other sources alone: their
    entries in the five tracking dicts are as before, and an alert added to
    the history is an alert for the packet's source. *)
Theorem X5_processing_is_per_source (d : DoSDetector) (p : Packet) (now t : Z) :
  let d' := (process_packet netsh_ok _is_private_ip PROCESS_PRIVATE_IPS d p now t).1 in
  (∀ ip, ip ≠ ip_src p → same_at ip d d') ∧
  (∀ a, a ∈ alert_history d' → a ∈ alert_history d ∨ src_ip a = ip_src p).
Proof. apply process_packet_per_source. Qed.

(** X6. A packet that is neither from a skipped private source nor from a
    blocked one is recorded once: the window of its source becomes the old
    window with [now] appended, pruned at [now], and the packet count of the
    source goes up by one. *)
Theorem X6_packet_recorded_once (d : DoSDetector) (p : Packet) (now t : Z) :
  _is_private_ip (ip_src p) && negb PROCESS_PRIVATE_IPS = false →
  ip_src p ∉ blocked_ips d →
  let d' := (process_packet netsh_ok _is_private_ip PROCESS_PRIVATE_IPS d p now t).1 in
  packet_timestamps d' !! ip_src p
  = Some (filter (λ ts, now - ts ≤ time_window d) (window d (ip_src p) ++ [now])) ∧
  counter (packet_counts d') (ip_src p) = counter (packet_counts d) (ip_src p) + 1.
Proof.
  intros Hpriv Hnb. unfold process_packet. rewrite Hpriv, decide_False by done.
  fold (recorded d p now).
  pose proof (check_thresholds_state (recorded d p now) (ip_src p) now t)
    as (Hpt & Hpc & _).
  destruct (recorded_frame d p now) as (Hwin & _ & _ & _ & Hpt0 & Hpc0).
  cbv zeta. rewrite Hpt, Hpc, Hpc0, lookup_insert_eq, counter_dd_incr.
  split; [|done]. unfold pruned_window, window.
  by rewrite Hwin, Hpt0, dd_append_lookup, decide_True.
Qed.

End ProcessorEffects.

(** ** What the maintenance sweep leaves alone *)

Lemma sweep_ip_frame now d a :
  let d' := sweep_ip now d a in
  alert_history d' = alert_history d ∧ threshold d' = threshold d ∧
  block_ips d' = block_ips d ∧ api_url d' = api_url d ∧
  blocked_ips d' = blocked_ips d ∧ running d' = running d.
Proof.
  unfold sweep_ip, _clean_old_timestamps, dd_get. repeat case_match; simplify_eq/=; done.
Qed.

Lemma sweep_keys_frame now keys d :
  let d' := sweep_keys now d keys in
  alert_history d' = alert_history d ∧ threshold d' = threshold d ∧
  block_ips d' = block_ips d ∧ api_url d' = api_url d ∧
  blocked_ips d' = blocked_ips d ∧ running d' = running d.
Proof.
  unfold sweep_keys. revert d. induction keys as [|a keys IH]; intros d; [done|].
  cbn [foldl]. destruct (IH (sweep_ip now d a)) as (-> & -> & -> & -> & -> & ->).
  apply sweep_ip_frame.
Qed.



(** ** Invariants of the running detector *)




Section Invariants.

Context (netsh_ok : Call → bool).
Context (_is_private_ip : string → bool) (PROCESS_PRIVATE_IPS : bool).

Local Abbreviation step := (process_packet netsh_ok _is_private_ip PROCESS_PRIVATE_IPS).
Local Abbreviation reach := (reachable netsh_ok _is_private_ip PROCESS_PRIVATE_IPS).





End Invariants.

Section TrackingInvariants.

Context (netsh_ok : Call → bool).
Context (_is_private_ip : string → bool) (PROCESS_PRIVATE_IPS : bool).

Local Abbreviation step := (process_packet netsh_ok _is_private_ip PROCESS_PRIVATE_IPS).
Local Abbreviation reach := (reachable netsh_ok _is_private_ip PROCESS_PRIVATE_IPS).

(** The counter dicts of the state in which the threshold check starts. *)
Lemma recorded_counters d p now ip :
  syn_flood_tracking (recorded d p now) !! ip
  = (if syn_signature p then dd_incr (syn_flood_tracking d) (ip_src p)
     else syn_flood_tracking d) !! ip ∧
  http_flood_tracking (recorded d p now) !! ip
  = (if http_signature p then dd_incr (http_flood_tracking d) (ip_src p)
     else http_flood_tracking d) !! ip ∧
  icmp_flood_tracking (recorded d p now) !! ip
  = (if icmp_signature p then dd_incr (icmp_flood_tracking d) (ip_src p)
     else icmp_flood_tracking d) !! ip.
Proof.
  unfold recorded. cbv zeta.
  match goal with |- context [_check_attack_signatures ?d2 p ?src] =>
    pose proof (check_attack_signatures_lookup d2 p src ip) as (-> & -> & ->)
  end. done.
Qed.





End TrackingInvariants.

(** ** How far back the history remembers *)

Lemma deque_append_drop {A} (h : list A) (x : A) :
  (length h ≤ 100)%nat →
  deque_append HISTORY_MAXLEN h x = drop (length h + 1 - 100) (h ++ [x]).
Proof.
  intros Hlen. unfold HISTORY_MAXLEN. rewrite deque_append_cases.
  destruct (Nat.ltb_spec (length h) 100).
  - by replace (length h + 1 - 100)%nat with 0%nat by lia.
  - replace (length h + 1 - 100)%nat with 1%nat by lia.
    destruct h; [simpl in *; lia | done].
Qed.

Section HistoryFacts.

Context (netsh_ok : Call → bool).

(** A run of triggers for pairwise different sources, none of which has an
    alert in the history: each one fires, and the history afterwards is the
    last 100 of the old history followed by the new alerts. *)
Lemma trigger_all_history d srcs count ty now :
  (length (alert_history d) ≤ 100)%nat →
  NoDup srcs →
  (∀ s a, s ∈ srcs → a ∈ alert_history d → src_ip a ≠ s) →
  alert_history (trigger_all netsh_ok d srcs count ty now)
  = drop (length (alert_history d) + length srcs - 100)
         (alert_history d ++ ((λ s, mkAlert now s count ty) <$> srcs)).
Proof.
  unfold trigger_all. revert d. induction srcs as [|s srcs IH]; intros d Hlen Hnd Hfresh.
  - simpl. rewrite app_nil_r.
    by replace (length (alert_history d) + 0 - 100)%nat with 0%nat by lia.
  - apply NoDup_cons in Hnd as [Hs Hnd]. cbn [foldl].
    assert (Hrec : recently_alerted d s now = false).
    { apply recently_alerted_false. intros a Hin Hsrc.
      destruct (Hfresh s a); [apply list_elem_of_here | done | done]. }
    destruct (trigger_fires netsh_ok d s count ty now Hrec) as (Hh & _).
    set (d1 := (_trigger_alert netsh_ok d s count ty now).1) in *.
    rewrite deque_append_drop in Hh by done.
    rewrite IH; [| | done |].
    + rewrite Hh, length_drop, length_app. simpl length.
      rewrite <- (drop_app_le _ _ _) by (rewrite length_app; simpl; lia).
      rewrite drop_drop, <- app_assoc. simpl. f_equal. lia.
    + rewrite Hh, length_drop, length_app. simpl. lia.
    + intros s' a Hs' Hin. rewrite Hh in Hin.
      apply subseteq_drop in Hin. apply elem_of_app in Hin as [Hin|Hin].
      * apply (Hfresh s' a); [by apply list_elem_of_further | done].
      * apply list_elem_of_singleton in Hin as ->. simpl. by intros ->.
Qed.

(** X11. The suppression of repeats reaches back 100 alerts and no
    further: after alerts for at least 100 pairwise different other sources
    have fired, a trigger for source [x] fires again at any clock reading,
    however recent its last alert was. *)
Theorem X11_hundred_alerts_erase_suppression (d : DoSDetector) (others : list string)
        (x : string) (count : Z) (ty : AttackType) (t1 : Z)
        (count' : Z) (ty' : AttackType) (t2 : Z) :
  (length (alert_history d) ≤ 100)%nat →
  NoDup others →
  (∀ s a, s ∈ others → a ∈ alert_history d → src_ip a ≠ s) →
  x ∉ others →
  (100 ≤ length others)%nat →
  let d2 := trigger_all netsh_ok d others count ty t1 in
  last (alert_history (_trigger_alert netsh_ok d2 x count' ty' t2).1)
  = Some (mkAlert t2 x count' ty').
Proof.
  intros Hlen Hnd Hfresh Hx Hmany d2.
  assert (Hrec : recently_alerted d2 x t2 = false).
  { apply recently_alerted_false. intros a Hin Hsrc. exfalso.
    unfold d2 in Hin. rewrite trigger_all_history in Hin by done.
    rewrite drop_app_ge in Hin by lia.
    apply subseteq_drop in Hin. apply list_elem_of_fmap in Hin as (s & -> & Hs).
    simpl in Hsrc. by subst s. }
  destruct (trigger_fires netsh_ok d2 x count' ty' t2 Hrec) as (-> & _).
  apply last_deque_append.
Qed.

End HistoryFacts.

(** ** The marker test on [str(load)] *)

Lemma prefix_upper_head m0 m' c r :
  is_upper m0 = true → is_upper c = false →
  String.prefix (String m0 m') (String c r) = false.
Proof.
  intros Hm Hc. simpl. destruct (ascii_dec m0 c) as [->|]; [congruence | done].
Qed.

Lemma hex_digit_not_upper n : is_upper (hex_digit n) = false.
Proof.
  unfold hex_digit. generalize (N.to_nat n). intros k.
  do 17 (destruct k as [|k]; [reflexivity|]). reflexivity.
Qed.

(** A byte is shown as itself, or it is no upper-case letter and is shown
    as an escape without upper-case letters. *)
Lemma repr_byte_cases q c :
  is_upper q = false →
  repr_byte q c = String c EmptyString ∨
  (is_upper c = false ∧
   ∃ e r, repr_byte q c = String e r ∧ is_upper e = false ∧ no_upper r = true).
Proof.
  intros Hq. unfold repr_byte.
  destruct (Ascii.eqb c q) eqn:Eq.
  { apply Ascii.eqb_eq in Eq as ->. right. split; [done|].
    eexists _, _. split; [reflexivity|]. simpl. by rewrite Hq. }
  destruct (Ascii.eqb c backslash) eqn:Eb.
  { apply Ascii.eqb_eq in Eb as ->. right. split; [done|].
    eexists _, _. split; [reflexivity|]. done. }
  simpl orb. cbv zeta.
  assert (Hup : ∀ P : Prop, (N_of_ascii c < 65)%N ∨ (90 < N_of_ascii c)%N →
                            is_upper c = false).
  { intros _ Hn. unfold is_upper. cbv zeta.
    destruct (N.leb_spec 65 (N_of_ascii c)), (N.leb_spec (N_of_ascii c) 90); simpl;
      try done; lia. }
  destruct (N.eqb_spec (N_of_ascii c) 9) as [E9|_].
  { right. split; [apply (Hup True); lia|]. eexists _, _. split; [reflexivity|]. done. }
  destruct (N.eqb_spec (N_of_ascii c) 10) as [E10|_].
  { right. split; [apply (Hup True); lia|]. eexists _, _. split; [reflexivity|]. done. }
  destruct (N.eqb_spec (N_of_ascii c) 13) as [E13|_].
  { right. split; [apply (Hup True); lia|]. eexists _, _. split; [reflexivity|]. done. }
  destruct (N.ltb_spec (N_of_ascii c) 32) as [Hlo|_]; simpl orb.
  { right. split; [apply (Hup True); lia|]. eexists _, _. split; [reflexivity|].
    split; [done|]. simpl. by rewrite !hex_digit_not_upper. }
  destruct (N.leb_spec 127 (N_of_ascii c)) as [Hhi|_].
  { right. split; [apply (Hup True); lia|]. eexists _, _. split; [reflexivity|].
    split; [done|]. simpl. by rewrite !hex_digit_not_upper. }
  by left.
Qed.

Lemma string_app_nil (b : string) : String.append EmptyString b = b.
Proof. reflexivity. Qed.

Lemma string_app_cons (x : ascii) (a b : string) :
  String.append (String x a) b = String x (String.append a b).
Proof. reflexivity. Qed.

Lemma string_app_assoc (a b c : string) :
  String.append (String.append a b) c = String.append a (String.append b c).
Proof.
  induction a as [|x a IH]; [done|]. by rewrite !string_app_cons, IH.
Qed.

Section Markers.

Context (m0 : ascii) (m' : string).
Context (Hm0 : is_upper m0 = true) (Hm' : all_upper m' = true).

Local Abbreviation marker := (String m0 m').

(** Characters that are no upper-case letters cannot start a match. *)
Lemma py_in_skip (e r : string) :
  no_upper e = true → py_in marker (String.append e r) = py_in marker r.
Proof.
  induction e as [|x e IH]; intros He; [done|].
  simpl in He. apply andb_true_iff in He as [Hx He]. apply negb_true_iff in Hx.
  rewrite string_app_cons.
  cbn [py_in]. rewrite prefix_upper_head by done. simpl orb. by apply IH.
Qed.

End Markers.

Lemma prefix_nil (s : string) : String.prefix EmptyString s = true.
Proof. by destruct s. Qed.

(** The text of [str(load)] starts with a marker where the bytes do. *)
Lemma prefix_repr_body q m s :
  is_upper q = false → all_upper m = true →
  String.prefix m (String.append (repr_body q s) (String q EmptyString))
  = String.prefix m s.
Proof.
  intros Hq. revert m. induction s as [|c s IH]; intros m Hm.
  - destruct m as [|m0 m']; [by rewrite !prefix_nil|].
    simpl in Hm. apply andb_true_iff in Hm as [Hm0 _].
    cbn [repr_body]. rewrite string_app_nil. by rewrite prefix_upper_head.
  - destruct m as [|m0 m']; [by rewrite !prefix_nil|].
    simpl in Hm. apply andb_true_iff in Hm as [Hm0 Hm'].
    cbn [repr_body]. rewrite string_app_assoc.
    destruct (repr_byte_cases q c Hq) as [-> | (Hc & e & r & -> & He & _)].
    + rewrite string_app_cons, string_app_nil. cbn [String.prefix].
      destruct (ascii_dec m0 c); [by apply IH | done].
    + rewrite string_app_cons. by rewrite !prefix_upper_head.
Qed.

Lemma py_in_repr_body q m0 m' s :
  is_upper q = false → is_upper m0 = true → all_upper m' = true →
  py_in (String m0 m') (String.append (repr_body q s) (String q EmptyString))
  = py_in (String m0 m') s.
Proof.
  intros Hq Hm0 Hm'. induction s as [|c s IH].
  - cbn [repr_body]. rewrite string_app_nil. cbn [py_in]. by rewrite prefix_upper_head.
  - assert (Hp := prefix_repr_body q (String m0 m') (String c s) Hq).
    cbn [all_upper] in Hp. rewrite Hm0, Hm' in Hp. specialize (Hp eq_refl).
    cbn [repr_body] in *. rewrite string_app_assoc in *.
    destruct (repr_byte_cases q c Hq) as [Hplain | (Hc & e & r & Hesc & He & Hr)].
    + rewrite Hplain in *. rewrite string_app_cons, string_app_nil in *.
      cbn [py_in]. by rewrite Hp, IH.
    + rewrite Hesc. rewrite (py_in_skip m0 m' Hm0 (String e r)); [|by simpl; rewrite He, Hr].
      rewrite IH. cbn [py_in]. by rewrite (prefix_upper_head m0 m' c s).
Qed.

(** A marker made of upper-case letters is in [str(load)] exactly when it
    is in the bytes of [load]. *)
Lemma py_in_bytes_str m0 m' b :
  is_upper m0 = true → all_upper m' = true →
  py_in (String m0 m') (bytes_str b) = py_in (String m0 m') b.
Proof.
  intros Hm0 Hm'. unfold bytes_str. cbv zeta.
  set (q := if mem_char squote b && negb (mem_char dquote b) then dquote else squote).
  assert (Hq : is_upper q = false) by (unfold q; by destruct (_ && _)).
  rewrite <- (string_app_nil (String.append (repr_body q b) (String q EmptyString))).
  rewrite <- !string_app_cons.
  rewrite (py_in_skip m0 m' Hm0); [|by simpl; rewrite Hq].
  by apply py_in_repr_body.
Qed.

(** X12. The HTTP signature could as well look at the payload bytes: the
    [b'...'] text that [str] makes of them, with its quotes and escapes,
    holds ["GET"], ["POST"] or ["HTTP"] exactly when the bytes do. *)
Theorem X12_http_signature_on_bytes (p : Packet) :
  http_signature p
  = match tcp_layer p, raw_load p with
    | Some t, Some load =>
        ((tcp_dport t =? 80) || (tcp_dport t =? 443)) &&
        (py_in "GET" load || py_in "POST" load || py_in "HTTP" load)
    | _, _ => false
    end.
Proof.
  unfold http_signature. destruct (tcp_layer p) as [t|]; [|done].
  destruct (raw_load p) as [load|]; [|done]. cbv zeta.
  by rewrite !py_in_bytes_str.
Qed.

(** ** The SYN signature, bit by bit *)

Lemma land_pow2_eqb_0 (f n : Z) :
  0 ≤ n → (Z.land f (2 ^ n) =? 0) = negb (Z.testbit f n).
Proof.
  intros Hn. destruct (Z.testbit f n) eqn:E; simpl.
  - apply Z.eqb_neq. intros H0.
    assert (Hb : Z.testbit (Z.land f (2 ^ n)) n = true)
      by (rewrite Z.land_spec, E, Z.pow2_bits_true; done).
    rewrite H0, Z.bits_0 in Hb. done.
  - apply Z.eqb_eq. apply Z.bits_inj'. intros k Hk.
    rewrite Z.land_spec, Z.bits_0, Z.pow2_bits_eqb by done.
    destruct (Z.eqb_spec n k) as [->|_]; [by rewrite E | apply andb_false_r].
Qed.

(** X13. The SYN signature holds exactly for a TCP packet whose flag bit 1
    (SYN, [0x02]) is set and whose flag bit 4 (ACK, [0x10]) is clear; the
    other flag bits play no part. *)
Theorem X13_syn_signature_bits (p : Packet) :
  syn_signature p
  = match tcp_layer p with
    | Some t => Z.testbit (tcp_flags t) 1 && negb (Z.testbit (tcp_flags t) 4)
    | None => false
    end.
Proof.
  unfold syn_signature. destruct (tcp_layer p) as [t|]; [|done].
  change 2 with (2 ^ 1). change 16 with (2 ^ 4).
  rewrite !land_pow2_eqb_0 by lia. by rewrite negb_involutive.
Qed.

(** ** The attack type sent to the API *)

Lemma is_upper_spec c :
  is_upper c = true ↔ (65 ≤ N_of_ascii c ≤ 90)%N.
Proof.
  unfold is_upper. cbv zeta. rewrite andb_true_iff, N.leb_le, N.leb_le. done.
Qed.

Lemma lower_char_spec c :
  is_upper (lower_char c) = false ∧
  (Ascii.eqb c " " = false → Ascii.eqb " " (lower_char c) = false).
Proof.
  unfold lower_char. cbv zeta.
  destruct (N.leb_spec 65 (N_of_ascii c)) as [Hlo|Hlo];
    [destruct (N.leb_spec (N_of_ascii c) 90) as [Hhi|Hhi]|]; cbn [andb].
  - assert (Hn : N_of_ascii (ascii_of_N (N_of_ascii c + 32)) = (N_of_ascii c + 32)%N)
      by (apply N_ascii_embedding; lia).
    split.
    + apply not_true_iff_false. rewrite is_upper_spec, Hn. lia.
    + intros _. apply Ascii.eqb_neq. intros Heq.
      apply (f_equal N_of_ascii) in Heq. rewrite Hn in Heq.
      change (N_of_ascii " ") with 32%N in Heq. lia.
  - split.
    + apply not_true_iff_false. rewrite is_upper_spec. lia.
    + intros Hc. apply Ascii.eqb_neq. apply Ascii.eqb_neq in Hc. congruence.
  - split.
    + apply not_true_iff_false. rewrite is_upper_spec. lia.
    + intros Hc. apply Ascii.eqb_neq. apply Ascii.eqb_neq in Hc. congruence.
Qed.

(** X14. The attack type put into a report is the label in lower case
    without blanks: whatever the label, the result holds no upper-case
    ASCII letter and no blank, and the four labels of the detector become
    [synflood], [httpflood], [icmpflood] and [generaldos]. *)
Theorem X14_api_attack_type_normal_form :
  (∀ s, no_upper (api_attack_type s) = true ∧ mem_char " " (api_attack_type s) = false) ∧
  (∀ ty, api_attack_type (attack_label ty)
         = match ty with
           | SynFlood => "synflood"
           | HttpFlood => "httpflood"
           | IcmpFlood => "icmpflood"
           | GeneralDoS => "generaldos"
           end).
Proof.
  split.
  - induction s as [|c s [IHu IHs]]; [done|]. cbn [api_attack_type].
    destruct (Ascii.eqb c " ") eqn:Ec; [done|].
    destruct (lower_char_spec c) as [Hu Hsp]. cbn [no_upper mem_char].
    by rewrite Hu, IHu, (Hsp Ec), IHs.
  - by intros [].
Qed.

(** ** Pruning again *)

(** X17. Pruning a record at [now1] and again at a later [now2] gives what
    pruning at [now2] alone gives; in particular pruning twice at one time
    is pruning once. *)
Theorem X17_later_prune_subsumes_earlier (d : DoSDetector) (src : string) (now1 now2 : Z) :
  now1 ≤ now2 →
  _clean_old_timestamps (_clean_old_timestamps d src now1) src now2
  = _clean_old_timestamps d src now2.
Proof.
  intros Hle. unfold _clean_old_timestamps.
  destruct (packet_timestamps d !! src) as [l|] eqn:E.
  - simpl. rewrite lookup_insert_eq. unfold set_packet_timestamps. simpl.
    f_equal. rewrite insert_insert_eq. f_equal.
    rewrite list_filter_filter. apply list_filter_iff. intros ts. lia.
  - by rewrite E.
Qed.

(** ** Small thresholds *)

(** X18. With a threshold of 3 or less, [threshold // 4] is at most 0, so
    the last test of the chain succeeds for every source whose ICMP counter
    is not negative: the check of every packet ends in a call of
    [_trigger_alert]. *)
Theorem X18_threshold_below_4_always_triggers (d : DoSDetector) (src : string) (now : Z) :
  threshold d ≤ 3 →
  0 ≤ counter (icmp_flood_tracking d) src →
  is_Some (threshold_decision d src now).1.
Proof.
  intros Hthr Hi. rewrite threshold_decision_fst. cbv zeta.
  assert (Hq : threshold d / 4 ≤ 0)
    by (change 0 with (3 / 4) at 1; apply Z.div_le_mono; lia).
  repeat case_match; try by eexists.
  match goal with H : (threshold d / 4 <=? _) = false |- _ => apply Z.leb_gt in H end. lia.
Qed.

(** ** Sweeping again *)

Lemma maintenance_sweep_counter_entry d now f ip :
  swept_along now f →
  f (maintenance_sweep d now) !! ip
  = match packet_timestamps d !! ip with
    | None => f d !! ip
    | Some _ =>
        match swept_entry (time_window d) now (packet_timestamps d !! ip) with
        | None => None
        | Some _ => f d !! ip
        end
    end.
Proof.
  intros Hf. unfold maintenance_sweep. rewrite (sweep_keys_counter _ _ _ _ _ Hf).
  destruct (packet_timestamps d !! ip) as [l|] eqn:E.
  - rewrite decide_True; [done|]. apply elem_of_tracked_keys. rewrite E. by eexists.
  - rewrite decide_False; [done|]. rewrite elem_of_tracked_keys, E. by intros [? ?].
Qed.

Lemma detector_eq (d d' : DoSDetector) :
  threshold d = threshold d' → time_window d = time_window d' →
  block_ips d = block_ips d' → api_url d = api_url d' →
  packet_counts d = packet_counts d' → packet_timestamps d = packet_timestamps d' →
  syn_flood_tracking d = syn_flood_tracking d' →
  http_flood_tracking d = http_flood_tracking d' →
  icmp_flood_tracking d = icmp_flood_tracking d' →
  blocked_ips d = blocked_ips d' → running d = running d' →
  alert_history d = alert_history d' →
  d = d'.
Proof. destruct d, d'; simpl; intros; by subst. Qed.

Lemma swept_entry_later win now1 now2 o :
  now1 ≤ now2 →
  swept_entry win now2 (swept_entry win now1 o) = swept_entry win now2 o.
Proof.
  intros Hle. destruct o as [l|]; [|done]. simpl.
  assert (Hff : filter (λ ts, now2 - ts ≤ win) (filter (λ ts, now1 - ts ≤ win) l)
                = filter (λ ts, now2 - ts ≤ win) l).
  { rewrite list_filter_filter. apply list_filter_iff. intros ts. lia. }
  destruct (filter (λ ts, now1 - ts ≤ win) l) as [|x l1] eqn:E1.
  - simpl in Hff. by rewrite <- Hff.
  - unfold swept_entry. by rewrite Hff.
Qed.

Lemma maintenance_sweep_counter_later d now1 now2 f ip :
  swept_along now1 f → swept_along now2 f →
  now1 ≤ now2 →
  f (maintenance_sweep (maintenance_sweep d now1) now2) !! ip
  = f (maintenance_sweep d now2) !! ip.
Proof.
  intros Hf1 Hf2 Hle.
  rewrite (maintenance_sweep_counter_entry (maintenance_sweep d now1) now2 f ip Hf2).
  rewrite (maintenance_sweep_counter_entry d now2 f ip Hf2).
  rewrite (maintenance_sweep_counter_entry d now1 f ip Hf1).
  rewrite maintenance_sweep_timestamps.
  unfold maintenance_sweep at 1. rewrite sweep_keys_time_window.
  rewrite (swept_entry_later _ _ _ _ Hle).
  destruct (packet_timestamps d !! ip) as [l|] eqn:E; [|done].
  destruct (swept_entry (time_window d) now1 (Some l)) as [l1|] eqn:E1.
  - done.
  - rewrite <- (swept_entry_later _ now1 now2 (Some l) Hle), E1. done.
Qed.

(** X15. A sweep at [now1] followed by a sweep at a later [now2] leaves
    the detector that the sweep at [now2] alone leaves; a second sweep at
    the same clock reading changes nothing. *)
Theorem X15_later_sweep_subsumes_earlier (d : DoSDetector) (now1 now2 : Z) :
  now1 ≤ now2 →
  maintenance_sweep (maintenance_sweep d now1) now2 = maintenance_sweep d now2.
Proof.
  intros Hle.
  pose proof (sweep_keys_frame now1 (tracked_keys d) d) as (A1 & A2 & A3 & A4 & A5 & A6).
  pose proof (sweep_keys_frame now2 (tracked_keys d) d) as (B1 & B2 & B3 & B4 & B5 & B6).
  pose proof (sweep_keys_frame now2 (tracked_keys (maintenance_sweep d now1))
                (maintenance_sweep d now1)) as (C1 & C2 & C3 & C4 & C5 & C6).
  fold (maintenance_sweep d now1) in A1, A2, A3, A4, A5, A6.
  fold (maintenance_sweep d now2) in B1, B2, B3, B4, B5, B6.
  fold (maintenance_sweep (maintenance_sweep d now1) now2) in C1, C2, C3, C4, C5, C6.
  apply detector_eq; try congruence.
  - unfold maintenance_sweep. by rewrite !sweep_keys_time_window.
  - apply map_eq. intros ip.
    by apply maintenance_sweep_counter_later; try apply swept_along_counts.
  - apply map_eq. intros ip. rewrite !maintenance_sweep_timestamps.
    unfold maintenance_sweep at 1. rewrite sweep_keys_time_window.
    by apply swept_entry_later.
  - apply map_eq. intros ip.
    by apply maintenance_sweep_counter_later; try apply swept_along_syn.
  - apply map_eq. intros ip.
    by apply maintenance_sweep_counter_later; try apply swept_along_http.
  - apply map_eq. intros ip.
    by apply maintenance_sweep_counter_later; try apply swept_along_icmp.
Qed.

(** ** How [stop] ends *)

Section StopOutcome.

Context (netsh_ok : Call → bool).

(** The loop of [stop] over sources that are all blocked: it tries them in
    turn while the unblocks fail, and the first that succeeds is the last
    one tried. *)
Lemma stop_loop_spec d ips :
  (∀ ip, ip ∈ ips → ip ∈ blocked_ips d) →
  ((∀ ip, ip ∈ ips → netsh_ok (NetshDeleteRule ip) = false) ∧
   stop_loop netsh_ok (size (blocked_ips d)) d ips = (d, NetshDeleteRule <$> ips, Returned)) ∨
  (∃ pre ip rest,
      ips = pre ++ ip :: rest ∧
      (∀ x, x ∈ pre → netsh_ok (NetshDeleteRule x) = false) ∧
      netsh_ok (NetshDeleteRule ip) = true ∧
      stop_loop netsh_ok (size (blocked_ips d)) d ips
      = (set_blocked_ips (blocked_ips d ∖ {[ip]}) d,
         NetshDeleteRule <$> (pre ++ [ip]), RuntimeError)).
Proof.
  induction ips as [|ip ips IH]; intros Hall.
  - left. split; [by intros ? ?%elem_of_nil|]. simpl. by rewrite Nat.eqb_refl.
  - assert (Hin : ip ∈ blocked_ips d) by (apply Hall, list_elem_of_here).
    destruct (netsh_ok (NetshDeleteRule ip)) eqn:Hok.
    + right. exists [], ip, ips. split_and!; [done | by intros ? ?%elem_of_nil | done |].
      by apply stop_loop_first_success.
    + assert (Hstep : stop_loop netsh_ok (size (blocked_ips d)) d (ip :: ips)
                      = let '(d2, c2, o) := stop_loop netsh_ok (size (blocked_ips d)) d ips in
                        (d2, NetshDeleteRule ip :: c2, o)).
      { simpl. rewrite Nat.eqb_refl. simpl. unfold _unblock_ip.
        rewrite decide_True, Hok by done.
        by destruct (stop_loop netsh_ok (size (blocked_ips d)) d ips) as [[d2 c2] o]. }
      rewrite Hstep.
      destruct IH as [[Hfail ->] | (pre & ip' & rest & -> & Hpre & Hok' & ->)].
      * intros x Hx. apply Hall. by apply list_elem_of_further.
      * left. split; [|done]. intros x [->|Hx]%elem_of_cons; [done | by apply Hfail].
      * right. exists (ip :: pre), ip', rest. split_and!; try done.
        intros x [->|Hx]%elem_of_cons; [done | by apply Hpre].
Qed.

(** X16. [stop] ends with [RuntimeError] exactly when enforcement is on
    and the unblock of some blocked source succeeds; it takes at most one
    source out of the blocked set, and it always leaves [running] false. *)
Theorem X16_stop_outcome (d : DoSDetector) :
  let r := stop netsh_ok d in
  (r.2 = RuntimeError ↔
   block_ips d = true ∧ ∃ ip, ip ∈ blocked_ips d ∧ netsh_ok (NetshDeleteRule ip) = true) ∧
  (blocked_ips r.1.1 = blocked_ips d ∨
   ∃ ip, ip ∈ blocked_ips d ∧ netsh_ok (NetshDeleteRule ip) = true ∧
         blocked_ips r.1.1 = blocked_ips d ∖ {[ip]}) ∧
  running r.1.1 = false.
Proof.
  unfold stop. simpl block_ips. simpl blocked_ips. destruct (block_ips d) eqn:Hblk.
  - destruct (decide (blocked_ips d = ∅)) as [Hemp|Hne].
    + rewrite bool_decide_eq_true_2 by done. simpl. split_and!; [|by left|done].
      split; [done|]. intros [_ (ip & Hin & _)]. rewrite Hemp in Hin.
      by apply not_elem_of_empty in Hin.
    + rewrite bool_decide_eq_false_2 by done. simpl.
      pose proof (stop_loop_spec (set_running false d) (elements (blocked_ips d))) as Hspec.
      simpl blocked_ips in Hspec.
      destruct Hspec as [[Hfail ->] | (pre & ip & rest & Hel & Hpre & Hok & ->)].
      * intros ip. by rewrite elem_of_elements.
      * simpl. split_and!; [|by left|done]. split; [done|].
        intros [_ (ip & Hin & Hok)]. apply elem_of_elements in Hin.
        rewrite (Hfail ip Hin) in Hok. done.
      * assert (Hin : ip ∈ blocked_ips d).
        { apply elem_of_elements. rewrite Hel. apply elem_of_app. right.
          apply list_elem_of_here. }
        simpl. split_and!; [|right; by exists ip|done]. split; [|done].
        intros _. split; [done|]. by exists ip.
  - simpl. split_and!; [|by left|done]. split; [done|]. by intros [? _].
Qed.

End StopOutcome.

(** ** The loops and [stop] *)

Section Loops.

Context (netsh_ok : Call → bool).
Context (_is_private_ip : string → bool) (PROCESS_PRIVATE_IPS : bool).




Lemma process_packet_running d p now t :
  running (process_packet netsh_ok _is_private_ip PROCESS_PRIVATE_IPS d p now t).1
  = running d.
Proof.
  destruct (process_packet_cases netsh_ok _is_private_ip PROCESS_PRIVATE_IPS d p now t)
    as [-> | [_ ->]]; [done|].
  pose proof (check_thresholds_state netsh_ok (recorded d p now) (ip_src p) now t)
    as (_ & _ & _ & _ & _ & _ & _ & _ & ->).
  by destruct (recorded_frame d p now) as (_ & _ & _ & -> & _).
Qed.


(** X20. While the detector runs, the processor loop takes the queued
    packets oldest first, each one once: given at least as many turns as
    packets, it empties the queue and leaves the detector that processing
    the packets one after the other, each at the clock readings of its
    turn, leaves. *)
Theorem X20_processor_drains_queue_in_order (d : DoSDetector) (queue : list Packet)
        (clock : list (Z * Z)) :
  running d = true →
  (length queue ≤ length clock)%nat →
  let r := _process_packets netsh_ok _is_private_ip PROCESS_PRIVATE_IPS d queue clock in
  r.1.2 = [] ∧
  r.1.1 = foldl (λ d (turn : Packet * (Z * Z)),
                   (process_packet netsh_ok _is_private_ip PROCESS_PRIVATE_IPS
                      d turn.1 turn.2.1 turn.2.2).1)
                d (zip queue clock).
Proof.
  revert d queue. induction clock as [|[now t] clock IH]; intros d queue Hrun Hlen.
  - destruct queue; [done | simpl in Hlen; lia].
  - cbn [_process_packets]. rewrite Hrun. destruct queue as [|p queue].
    + destruct (IH d [] Hrun) as [Hq Hd]; [simpl; lia|]. simpl in *. done.
    + pose proof (process_packet_running d p now t) as Hrun1.
      destruct (process_packet netsh_ok _is_private_ip PROCESS_PRIVATE_IPS d p now t)
        as [d1 c1] eqn:E1. simpl in Hrun1. rewrite Hrun in Hrun1.
      destruct (IH d1 queue Hrun1) as [Hq Hd]; [simpl in Hlen; lia|].
      destruct (_process_packets netsh_ok _is_private_ip PROCESS_PRIVATE_IPS d1 queue clock)
        as [[d2 q2] c2]. simpl in *. by rewrite E1.
Qed.

End Loops.

(** ** The tables of [show_statistics] *)

Section SortedDesc.

Context {A : Type} (key : A → Z).

Lemma insert_desc_perm (x : A) (l : list A) : insert_desc key x l ≡ₚ x :: l.
Proof.
  induction l as [|y l IH]; simpl; [done|].
  destruct (key x <? key y); [|done]. rewrite IH. apply Permutation_swap.
Qed.

Lemma sorted_desc_perm (l : list A) : sorted_desc key l ≡ₚ l.
Proof.
  unfold sorted_desc. induction l as [|x l IH]; simpl; [done|].
  by rewrite insert_desc_perm, IH.
Qed.

Lemma insert_desc_sorted (x : A) (l : list A) :
  StronglySorted (λ a b, key b ≤ key a) l →
  StronglySorted (λ a b, key b ≤ key a) (insert_desc key x l).
Proof.
  induction l as [|y l IH]; intros Hs; simpl.
  - repeat constructor.
  - apply StronglySorted_cons in Hs as [Hy Hs].
    destruct (Z.ltb_spec (key x) (key y)).
    + apply StronglySorted_cons. split; [|by apply IH].
      rewrite Forall_forall in *. intros z Hz.
      rewrite insert_desc_perm in Hz. apply elem_of_cons in Hz as [->|Hz]; [lia | by apply Hy].
    + apply StronglySorted_cons. split.
      * rewrite Forall_forall in *. intros z [->|Hz]%elem_of_cons; [done|].
        specialize (Hy z Hz). simpl in Hy. lia.
      * by apply StronglySorted_cons.
Qed.

Lemma sorted_desc_sorted (l : list A) :
  StronglySorted (λ a b, key b ≤ key a) (sorted_desc key l).
Proof.
  unfold sorted_desc. induction l as [|x l IH]; simpl; [constructor|].
  by apply insert_desc_sorted.
Qed.

End SortedDesc.

Lemma StronglySorted_fmap_mono {A B} (R : relation A) (R' : relation B) (f : A → B)
      (l : list A) :
  (∀ a b, R a b → R' (f a) (f b)) →
  StronglySorted R l → StronglySorted R' (f <$> l).
Proof.
  intros Hf Hs. induction Hs as [|x l Hl IH Hx]; simpl; [constructor|].
  constructor; [done|]. rewrite Forall_forall in Hx. apply Forall_forall. intros r Hr.
  apply list_elem_of_fmap in Hr as (a & -> & Hin). by apply Hf, Hx.
Qed.

(** X21. The "Current Traffic" table has one row for each of the (at most
    ten) sources with the greatest packet counts: no source twice, counts
    not increasing down the table, each row showing the source's packet
    count, its three signature counters and whether it is blocked; a
    tracked source that is not shown has a count no greater than any shown. *)
Theorem X21_current_traffic_top_ten (d : DoSDetector) (items : list (string * Z)) :
  items ≡ₚ map_to_list (packet_counts d) →
  let rows := current_traffic d items in
  length rows = Nat.min 10 (size (packet_counts d)) ∧
  NoDup (row_ip <$> rows) ∧
  StronglySorted (λ r1 r2, row_packets r2 ≤ row_packets r1) rows ∧
  (∀ r, r ∈ rows →
        packet_counts d !! row_ip r = Some (row_packets r) ∧
        row_syn r = counter (syn_flood_tracking d) (row_ip r) ∧
        row_http r = counter (http_flood_tracking d) (row_ip r) ∧
        row_icmp r = counter (icmp_flood_tracking d) (row_ip r) ∧
        (row_status r = "BLOCKED"%string ↔ row_ip r ∈ blocked_ips d)) ∧
  (∀ ip c, packet_counts d !! ip = Some c →
           (∃ r, r ∈ rows ∧ row_ip r = ip) ∨ (∀ r, r ∈ rows → c ≤ row_packets r)).
Proof.
  intros Hitems rows.
  set (sorted := sorted_desc snd items).
  assert (Hperm : sorted ≡ₚ map_to_list (packet_counts d))
    by (unfold sorted; by rewrite sorted_desc_perm).
  assert (Hsorted : StronglySorted (λ a b : string * Z, b.2 ≤ a.2) sorted)
    by apply sorted_desc_sorted.
  assert (Hsplit : sorted = take 10 sorted ++ drop 10 sorted) by by rewrite take_drop.
  assert (Hrow : ∀ r, r ∈ rows ↔
                      ∃ item, item ∈ take 10 sorted ∧
                              r = mkTrafficRow item.1 item.2
                                    (counter (syn_flood_tracking d) item.1)
                                    (counter (http_flood_tracking d) item.1)
                                    (counter (icmp_flood_tracking d) item.1)
                                    (status d item.1)).
  { intros r. unfold rows, current_traffic. fold sorted. rewrite list_elem_of_fmap.
    split; intros (item & ? & ?); exists item; done. }
  split_and!.
  - unfold rows, current_traffic. fold sorted.
    rewrite length_fmap, length_take, Hperm, length_map_to_list. done.
  - unfold rows, current_traffic. fold sorted. rewrite <- list_fmap_compose.
    change (row_ip ∘ _) with (fst : string * Z → string).
    rewrite fmap_take. apply (sublist_NoDup _ (sorted.*1)).
    + rewrite Hperm. apply NoDup_fst_map_to_list.
    + apply sublist_take.
  - unfold rows, current_traffic. fold sorted.
    rewrite Hsplit in Hsorted. apply StronglySorted_app_1_l in Hsorted.
    by apply (StronglySorted_fmap_mono (λ a b : string * Z, b.2 ≤ a.2)).
  - intros r (item & Hin & ->)%Hrow. simpl.
    apply subseteq_take in Hin. rewrite Hperm in Hin.
    destruct item as [ip c]. apply elem_of_map_to_list in Hin. simpl.
    split_and!; try done. unfold status. case_decide; split; done.
  - intros ip c Hc. apply elem_of_map_to_list in Hc. rewrite <- Hperm, Hsplit in Hc.
    apply elem_of_app in Hc as [Hc|Hc].
    + left. eexists. split; [apply Hrow; by exists (ip, c) | done].
    + right. intros r (item & Hin & ->)%Hrow. simpl.
      rewrite Hsplit in Hsorted.
      apply (StronglySorted_app_1_elem_of _ _ _ item (ip, c) Hsorted Hin Hc).
Qed.

(** X22. The "Recent Alerts" table lists every alert of the history once,
    the latest first: its rows are the alerts of the history in some order,
    and the times do not increase down the table. *)
Theorem X22_recent_alerts_newest_first (d : DoSDetector) :
  recent_alerts d
  ≡ₚ (λ a, mkAlertRow (timestamp a) (src_ip a) (attack_label (attack_type a))
             (packet_count a) (status d (src_ip a))) <$> alert_history d ∧
  StronglySorted (λ r1 r2, arow_time r2 ≤ arow_time r1) (recent_alerts d).
Proof.
  unfold recent_alerts. split.
  - by rewrite sorted_desc_perm.
  - apply (StronglySorted_fmap_mono (λ a b, timestamp b ≤ timestamp a)); [done|].
    apply sorted_desc_sorted.
Qed.

(** ** The further properties at concrete detectors *)

Lemma X2_block_unblock_witness :
  _unblock_ip always_ok (_block_ip always_ok (init 10 10 true None) "1.1.1.1").1 "1.1.1.1"
  = (init 10 10 true None, [NetshDeleteRule "1.1.1.1"]).
Proof.
  apply (X2_block_unblock_round_trip always_ok (init 10 10 true None) "1.1.1.1").
  - apply not_elem_of_empty.
  - reflexivity.
  - reflexivity.
Defined.

Lemma X3_alert_calls_witness :
  blocked_ips (_trigger_alert always_ok d_alerted "10.0.0.7" 9 SynFlood 119).1
  = (if block_ips d_alerted && always_ok (NetshAddRule "10.0.0.7")
     then {["10.0.0.7"%string]} ∪ blocked_ips d_alerted else blocked_ips d_alerted).
Proof.
  destruct (X3_alert_calls_and_blocking always_ok d_alerted "10.0.0.7" 9 SynFlood 119)
    as [_ Hb]; [vm_compute; reflexivity | exact Hb].
Defined.

Lemma X6_packet_recorded_witness :
  let d := init 10 10 false None in
  let p := syn_pkt "10.0.0.1" in
  let d' := (process_packet always_ok never_private false d p 5 5).1 in
  packet_timestamps d' !! ip_src p
  = Some (filter (λ ts, 5 - ts ≤ time_window d) (window d (ip_src p) ++ [5])) ∧
  counter (packet_counts d') (ip_src p) = counter (packet_counts d) (ip_src p) + 1.
Proof.
  intros d p.
  apply (X6_packet_recorded_once always_ok never_private false d p 5 5).
  - reflexivity.
  - apply not_elem_of_empty.
Defined.





Lemma X11_erase_witness :
  let d2 := trigger_all always_ok (init 1000 10 false None) flood_sources 1000 GeneralDoS 1 in
  last (alert_history (_trigger_alert always_ok d2 "10.0.0.1" 1000 GeneralDoS 2).1)
  = Some (mkAlert 2 "10.0.0.1" 1000 GeneralDoS).
Proof.
  apply (X11_hundred_alerts_erase_suppression always_ok (init 1000 10 false None)
           flood_sources "10.0.0.1" 1000 GeneralDoS 1 1000 GeneralDoS 2).
  - simpl. lia.
  - apply (bool_decide_unpack _). vm_compute. exact I.
  - intros s a _ Hin. simpl in Hin. by apply elem_of_nil in Hin.
  - apply (bool_decide_unpack _). vm_compute. exact I.
  - vm_compute. lia.
Defined.

Lemma X15_later_sweep_witness :
  maintenance_sweep (maintenance_sweep d_stale 50) 60 = maintenance_sweep d_stale 60.
Proof. apply (X15_later_sweep_subsumes_earlier d_stale 50 60). lia. Defined.

Lemma X17_later_prune_witness :
  _clean_old_timestamps (_clean_old_timestamps d_prune "10.0.0.1" 20) "10.0.0.1" 32
  = _clean_old_timestamps d_prune "10.0.0.1" 32.
Proof. apply (X17_later_prune_subsumes_earlier d_prune "10.0.0.1" 20 32). lia. Defined.

Lemma X18_small_threshold_witness :
  is_Some (threshold_decision (init 3 10 false None) "10.0.0.1" 0).1.
Proof.
  apply (X18_threshold_below_4_always_triggers (init 3 10 false None) "10.0.0.1" 0).
  - simpl. lia.
  - vm_compute. discriminate.
Defined.

Lemma X20_drain_witness :
  let d := init 10 10 false None in
  let queue := [syn_pkt "10.0.0.1"; udp_pkt "10.0.0.2"] in
  let clock := [(1, 1); (2, 2); (3, 3)] in
  let r := _process_packets always_ok never_private false d queue clock in
  r.1.2 = [] ∧
  r.1.1 = foldl (λ d (turn : Packet * (Z * Z)),
                   (process_packet always_ok never_private false
                      d turn.1 turn.2.1 turn.2.2).1)
                d (zip queue clock).
Proof.
  intros d queue clock.
  apply (X20_processor_drains_queue_in_order always_ok never_private false d queue clock).
  - reflexivity.
  - simpl. lia.
Defined.

Lemma X21_current_traffic_witness :
  length (current_traffic d_stale (map_to_list (packet_counts d_stale)))
  = Nat.min 10 (size (packet_counts d_stale)).
Proof.
  destruct (X21_current_traffic_top_ten d_stale (map_to_list (packet_counts d_stale)))
    as [Hlen _]; [reflexivity | exact Hlen].
Defined.

(** ** When the processor alerts and what it calls *)

Section Detection.

Context (netsh_ok : Call → bool).
Context (_is_private_ip : string → bool) (PROCESS_PRIVATE_IPS : bool).

Local Abbreviation step := (process_packet netsh_ok _is_private_ip PROCESS_PRIVATE_IPS).

Lemma recorded_config d p now :
  block_ips (recorded d p now) = block_ips d ∧ api_url (recorded d p now) = api_url d ∧
  blocked_ips (recorded d p now) = blocked_ips d.
Proof.
  unfold recorded, _check_attack_signatures. cbv zeta.
  destruct (syn_signature p), (http_signature p), (icmp_signature p); done.
Qed.

Lemma recorded_pruned_window d p now :
  pruned_window (recorded d p now) (ip_src p) now
  = filter (λ ts, now - ts ≤ time_window d) (window d (ip_src p) ++ [now]).
Proof.
  destruct (recorded_frame d p now) as (Hwin & _ & _ & _ & Hpt & _).
  unfold pruned_window, window. by rewrite Hwin, Hpt, dd_append_lookup, decide_True.
Qed.

Lemma recorded_counter_values d p now :
  counter (syn_flood_tracking (recorded d p now)) (ip_src p)
  = counter (syn_flood_tracking d) (ip_src p) + (if syn_signature p then 1 else 0) ∧
  counter (http_flood_tracking (recorded d p now)) (ip_src p)
  = counter (http_flood_tracking d) (ip_src p) + (if http_signature p then 1 else 0) ∧
  counter (icmp_flood_tracking (recorded d p now)) (ip_src p)
  = counter (icmp_flood_tracking d) (ip_src p) + (if icmp_signature p then 1 else 0).
Proof.
  destruct (recorded_counters d p now (ip_src p)) as (Hs & Hh & Hi).
  unfold counter at 1 3 5. rewrite Hs, Hh, Hi.
  destruct (syn_signature p), (http_signature p), (icmp_signature p);
    rewrite ?dd_incr_lookup, ?decide_True by done; unfold counter; simpl;
    split_and!; lia.
Qed.

(** X23. No flood goes unrecorded: when the packet just recorded brings
    the pruned window of its source up to the threshold, then after the turn
    either the history holds an alert for that source younger than
    [time_window * 2] (the trigger was suppressed and the history is as it
    was), or the turn has put an alert for the source, counting the window,
    at the end of the history. *)
Theorem X23_threshold_reached_is_on_record (d : DoSDetector) (p : Packet) (now t : Z) :
  _is_private_ip (ip_src p) && negb PROCESS_PRIVATE_IPS = false →
  ip_src p ∉ blocked_ips d →
  let n := Z.of_nat (length (filter (λ ts, now - ts ≤ time_window d)
                               (window d (ip_src p) ++ [now]))) in
  threshold d ≤ n →
  let d' := (step d p now t).1 in
  (alert_history d' = alert_history d ∧
   ∃ a, a ∈ alert_history d ∧ src_ip a = ip_src p ∧
        t - timestamp a < time_window d * 2) ∨
  (∃ ty, last (alert_history d') = Some (mkAlert t (ip_src p) n ty)).
Proof.
  intros Hpriv Hnb n Hn. unfold process_packet. rewrite Hpriv, decide_False by done.
  fold (recorded d p now). set (rec := recorded d p now).
  destruct (recorded_frame d p now) as (Hwin & Hthr & Hah & _). fold rec in Hwin, Hthr, Hah.
  pose proof (recorded_pruned_window d p now) as Hpw. fold rec in Hpw.
  unfold _check_thresholds.
  pose proof (threshold_decision_fst rec (ip_src p) now) as Hfst. cbv zeta in Hfst.
  rewrite Hpw, Hthr in Hfst. fold n in Hfst. rewrite (proj2 (Z.leb_le _ _) Hn) in Hfst.
  pose proof (threshold_decision_frame rec (ip_src p) now) as (Hah1 & Hwin1 & _).
  destruct (threshold_decision rec (ip_src p) now) as [r d1]. simpl in Hfst, Hah1, Hwin1.
  subst r. cbv zeta.
  match goal with |- context [_trigger_alert _ _ _ _ ?ty0 _] => set (ty := ty0) end.
  destruct (recently_alerted d1 (ip_src p) t) eqn:Hrec.
  - left. rewrite (trigger_suppressed netsh_ok d1 _ n ty t Hrec). simpl.
    rewrite Hah1, Hah. split; [done|].
    apply recently_alerted_true in Hrec as (a & Hin & Hsrc & Hlt).
    exists a. rewrite Hah1, Hah in Hin. rewrite Hwin1, Hwin in Hlt. done.
  - right. exists ty.
    destruct (trigger_fires netsh_ok d1 (ip_src p) n ty t Hrec) as (-> & _).
    apply last_deque_append.
Qed.

(** X24. Below every threshold the turn is silent: when, with the packet
    counted in, the pruned window of its source is shorter than the
    threshold and the SYN, HTTP and ICMP counters are below a half, a third
    and a quarter of it, the turn records no alert, blocks nothing and makes
    no call. *)
Theorem X24_below_thresholds_no_alert (d : DoSDetector) (p : Packet) (now t : Z) :
  let src := ip_src p in
  Z.of_nat (length (filter (λ ts, now - ts ≤ time_window d) (window d src ++ [now])))
  < threshold d →
  counter (syn_flood_tracking d) src + (if syn_signature p then 1 else 0) < threshold d / 2 →
  counter (http_flood_tracking d) src + (if http_signature p then 1 else 0) < threshold d / 3 →
  counter (icmp_flood_tracking d) src + (if icmp_signature p then 1 else 0) < threshold d / 4 →
  (step d p now t).2 = [] ∧
  alert_history (step d p now t).1 = alert_history d ∧
  blocked_ips (step d p now t).1 = blocked_ips d.
Proof.
  intros src Hn Hs Hh Hi. subst src.
  destruct (process_packet_cases netsh_ok _is_private_ip PROCESS_PRIVATE_IPS d p now t)
    as [-> | [_ ->]]; [done|].
  set (rec := recorded d p now).
  destruct (recorded_frame d p now) as (_ & Hthr & Hah & _). fold rec in Hthr, Hah.
  destruct (recorded_config d p now) as (_ & _ & Hbl). fold rec in Hbl.
  pose proof (recorded_pruned_window d p now) as Hpw. fold rec in Hpw.
  destruct (recorded_counter_values d p now) as (Cs & Ch & Ci). fold rec in Cs, Ch, Ci.
  unfold _check_thresholds.
  pose proof (threshold_decision_fst rec (ip_src p) now) as Hfst. cbv zeta in Hfst.
  rewrite Hpw, Hthr, Cs, Ch, Ci in Hfst.
  rewrite (proj2 (Z.leb_gt _ _) Hn), (proj2 (Z.leb_gt _ _) Hs),
    (proj2 (Z.leb_gt _ _) Hh), (proj2 (Z.leb_gt _ _) Hi) in Hfst.
  pose proof (threshold_decision_frame rec (ip_src p) now)
    as (Hah1 & _ & _ & _ & _ & Hbl1 & _).
  destruct (threshold_decision rec (ip_src p) now) as [r d1]. simpl in Hfst, Hah1, Hbl1.
  subst r. simpl. by rewrite Hah1, Hah, Hbl1, Hbl.
Qed.

(** X25. One turn of the processor makes at most two calls, and only
    about the source of its packet: an add-rule command, only with
    enforcement on and the source not blocked yet, and a report, only with a
    non-empty API URL; it never deletes a firewall rule.  With enforcement
    off and no URL it makes no call at all. *)
Theorem X25_calls_of_a_turn (d : DoSDetector) (p : Packet) (now t : Z) :
  let calls := (step d p now t).2 in
  (length calls ≤ 2)%nat ∧
  (∀ c, c ∈ calls →
        (c = NetshAddRule (ip_src p) ∧ block_ips d = true ∧ ip_src p ∉ blocked_ips d) ∨
        (∃ u body, c = PostReport (String.append u "/api/report-attack") body ∧
                   api_url d = Some u ∧ u ≠ EmptyString ∧ sourceIP body = ip_src p)) ∧
  (block_ips d = false → api_url d = None → calls = []).
Proof.
  destruct (process_packet_cases netsh_ok _is_private_ip PROCESS_PRIVATE_IPS d p now t)
    as [-> | [_ ->]]; simpl.
  { split_and!; [lia | by intros c ?%elem_of_nil | done]. }
  set (rec := recorded d p now).
  destruct (recorded_config d p now) as (Hblk & Hapi & Hbl). fold rec in Hblk, Hapi, Hbl.
  unfold _check_thresholds.
  pose proof (threshold_decision_frame rec (ip_src p) now)
    as (_ & _ & _ & Hblk1 & Hapi1 & Hbl1 & _).
  destruct (threshold_decision rec (ip_src p) now) as [[[count ty]|] d1];
    simpl in Hblk1, Hapi1, Hbl1; simpl;
    [|split_and!; [lia | by intros c ?%elem_of_nil | done]].
  destruct (recently_alerted d1 (ip_src p) t) eqn:Hrec.
  { rewrite (trigger_suppressed netsh_ok d1 _ count ty t Hrec). simpl.
    split_and!; [lia | by intros c ?%elem_of_nil | done]. }
  destruct (trigger_alert_outside netsh_ok d1 (ip_src p) count ty t Hrec) as [-> _].
  rewrite Hblk1, Hapi1, Hbl1, Hblk, Hapi, Hbl.
  destruct (block_ips d), (decide (ip_src p ∈ blocked_ips d)), (api_url d) as [[|c0 u]|];
    simpl; split_and!; try lia; try done;
    intros c Hc;
    repeat (apply elem_of_cons in Hc as [-> | Hc]); try (by apply elem_of_nil in Hc);
    first [ left; done
          | right; eexists (String c0 u), _; split_and!; [reflexivity | done | done | done] ].
Qed.

End Detection.

Lemma X23_on_record_witness :
  let d := d_mixed in
  let p := udp_pkt "10.0.0.1" in
  let n := Z.of_nat (length (filter (λ ts, 11 - ts ≤ time_window d)
                               (window d (ip_src p) ++ [11]))) in
  let d' := (process_packet always_ok never_private false d p 11 11).1 in
  (alert_history d' = alert_history d ∧
   ∃ a, a ∈ alert_history d ∧ src_ip a = ip_src p ∧
        11 - timestamp a < time_window d * 2) ∨
  (∃ ty, last (alert_history d') = Some (mkAlert 11 (ip_src p) n ty)).
Proof.
  intros d p.
  apply (X23_threshold_reached_is_on_record always_ok never_private false d p 11 11).
  - reflexivity.
  - apply not_elem_of_empty.
  - vm_compute. discriminate.
Defined.

Lemma X24_silent_witness :
  (process_packet always_ok never_private false (init 100 10 true None)
     (syn_pkt "10.0.0.1") 1 1).2 = [].
Proof.
  destruct (X24_below_thresholds_no_alert always_ok never_private false
              (init 100 10 true None) (syn_pkt "10.0.0.1") 1 1) as (Hc & _);
    [vm_compute; reflexivity.. | exact Hc].
Defined.

(** ** The threshold check only reads *)

(** X26. The threshold chain, [_determine_attack_type] included, changes
    no count: after it every SYN, HTTP and ICMP counter reads as before
    (reading a missing counter binds it, for the checked source only, to 0),
    the packet counts, the history and the blocked set are as before, the
    windows of the other sources are untouched, and the window of the
    checked source is the pruned one. *)
Theorem X26_threshold_check_changes_no_count (d : DoSDetector) (src : string) (now : Z) :
  let d' := (threshold_decision d src now).2 in
  (∀ ip, counter (syn_flood_tracking d') ip = counter (syn_flood_tracking d) ip ∧
         counter (http_flood_tracking d') ip = counter (http_flood_tracking d) ip ∧
         counter (icmp_flood_tracking d') ip = counter (icmp_flood_tracking d) ip) ∧
  (∀ ip, ip ≠ src →
         syn_flood_tracking d' !! ip = syn_flood_tracking d !! ip ∧
         http_flood_tracking d' !! ip = http_flood_tracking d !! ip ∧
         icmp_flood_tracking d' !! ip = icmp_flood_tracking d !! ip ∧
         packet_timestamps d' !! ip = packet_timestamps d !! ip) ∧
  packet_timestamps d' !! src = Some (pruned_window d src now) ∧
  packet_counts d' = packet_counts d ∧
  alert_history d' = alert_history d ∧
  blocked_ips d' = blocked_ips d.
Proof.
  pose proof (threshold_decision_state d src now) as (Hpt & Hs & Hh & Hi & _).
  pose proof (threshold_decision_frame d src now) as (Hah & _ & _ & _ & _ & Hbl & Hpc).
  cbv zeta in *. split_and!; try done.
  - intros ip. split_and!; by eapply touched_counter.
  - intros ip Hne. rewrite Hpt, lookup_insert_ne by done.
    split_and!; try done; by eapply touched_lookup.
  - by rewrite Hpt, lookup_insert_eq.
Qed.

(** ** The window of a source over a run *)

Section WindowOverRun.

Context (netsh_ok : Call → bool).
Context (_is_private_ip : string → bool) (PROCESS_PRIVATE_IPS : bool).

Local Abbreviation step := (process_packet netsh_ok _is_private_ip PROCESS_PRIVATE_IPS).

(** With enforcement off a turn of the processor blocks nothing. *)
Lemma process_packet_enforcement_off d p now t :
  block_ips d = false →
  block_ips (step d p now t).1 = false ∧
  blocked_ips (step d p now t).1 = blocked_ips d ∧
  time_window (step d p now t).1 = time_window d.
Proof.
  intros Hoff.
  destruct (process_packet_cases netsh_ok _is_private_ip PROCESS_PRIVATE_IPS d p now t)
    as [-> | [_ ->]]; [done|].
  destruct (recorded_config d p now) as (Hblk & _ & Hbl).
  destruct (recorded_frame d p now) as (Hwin & _).
  unfold _check_thresholds.
  pose proof (threshold_decision_frame (recorded d p now) (ip_src p) now)
    as (_ & Hwin1 & _ & Hblk1 & _ & Hbl1 & _).
  destruct (threshold_decision (recorded d p now) (ip_src p) now) as [[[count ty]|] d1];
    simpl in Hblk1, Hbl1, Hwin1; simpl; [|by rewrite Hblk1, Hbl1, Hwin1, Hblk, Hbl, Hwin].
  assert (Hoff1 : block_ips d1 = false) by by rewrite Hblk1, Hblk.
  unfold _trigger_alert. destruct (recently_alerted d1 (ip_src p) t); simpl;
    [by rewrite Hblk1, Hbl1, Hwin1, Hblk, Hbl, Hwin|].
  rewrite Hoff1. simpl. by rewrite Hbl1, Hwin1, Hbl, Hwin.
Qed.

Lemma process_packet_window d p now t :
  _is_private_ip (ip_src p) && negb PROCESS_PRIVATE_IPS = false →
  ip_src p ∉ blocked_ips d →
  window (step d p now t).1 (ip_src p)
  = filter (λ ts, now - ts ≤ time_window d) (window d (ip_src p) ++ [now]).
Proof.
  intros Hpriv Hnb. unfold process_packet. rewrite Hpriv, decide_False by done.
  fold (recorded d p now).
  pose proof (check_thresholds_state netsh_ok (recorded d p now) (ip_src p) now t)
    as (Hpt & _).
  unfold window at 1. rewrite Hpt, lookup_insert_eq. simpl.
  apply recorded_pruned_window.
Qed.

Lemma final_time_ge t0 ts : StronglySorted Z.le (t0 :: ts) → t0 ≤ final_time t0 ts.
Proof.
  intros Hs. unfold final_time. destruct (last ts) as [x|] eqn:E; simpl; [|lia].
  apply StronglySorted_cons in Hs as [Hall _]. rewrite Forall_forall in Hall.
  apply Hall. by apply last_Some_elem_of.
Qed.

(** X27. With enforcement off, the window of a source is exactly the
    arrival times within the last [time_window] seconds: after a run of
    packets that all come from one processed source, at clock readings that
    do not decrease, its window is the old window followed by the readings
    of the run, without those more than [time_window] before the last
    reading; nothing is lost and nothing is counted twice. *)
Theorem X27_window_over_a_run (d : DoSDetector) (src : string)
        (p : Packet) (now : Z) (evs : list (Packet * Z)) :
  block_ips d = false →
  src ∉ blocked_ips d →
  _is_private_ip src && negb PROCESS_PRIVATE_IPS = false →
  ip_src p = src →
  (∀ ev, ev ∈ evs → ip_src ev.1 = src) →
  StronglySorted Z.le (now :: evs.*2) →
  window (process_all netsh_ok _is_private_ip PROCESS_PRIVATE_IPS d ((p, now) :: evs)) src
  = filter (λ ts, final_time now (evs.*2) - ts ≤ time_window d)
           (window d src ++ now :: evs.*2).
Proof.
  unfold process_all. revert d p now.
  induction evs as [|[p2 now2] evs IH]; intros d p now Hoff Hnb Hpriv Hp Hall Hs.
  - cbn [foldl]. simpl fst. simpl snd. subst src.
    by rewrite process_packet_window.
  - cbn [foldl]. simpl fst. simpl snd.
    destruct (process_packet_enforcement_off d p now now Hoff) as (Hoff1 & Hbl1 & Hwin1).
    set (d1 := (step d p now now).1) in *.
    pose proof (StronglySorted_cons Z.le) as Hc.
    cbn [fmap list_fmap] in Hs. simpl snd in Hs.
    assert (Hs2 : StronglySorted Z.le (now2 :: evs.*2)) by (apply Hc in Hs; tauto).
    assert (Hw1 : window d1 src
                  = filter (λ ts, now - ts ≤ time_window d) (window d src ++ [now])).
    { unfold d1. rewrite <- Hp. apply process_packet_window; by rewrite Hp. }
    assert (Hfin : final_time now ((p2, now2) :: evs).*2 = final_time now2 (evs.*2)).
    { unfold final_time. cbn [fmap list_fmap]. simpl snd.
      destruct (evs.*2) as [|x l] eqn:E; [done|].
      rewrite (last_cons_cons now2 x l).
      destruct (last (x :: l)) eqn:El; [done|]. by apply last_None in El. }
    assert (Hle : now ≤ final_time now2 (evs.*2)).
    { pose proof (final_time_ge now2 (evs.*2) Hs2).
      apply Hc in Hs as [Hall' _]. rewrite Forall_forall in Hall'.
      specialize (Hall' now2 (list_elem_of_here _ _)). lia. }
    assert (Hrest := IH d1 p2 now2 Hoff1).
    cbn [foldl] in Hrest. simpl fst in Hrest. simpl snd in Hrest.
    rewrite Hrest;
      [| by rewrite Hbl1 | done | apply (Hall (p2, now2)), list_elem_of_here
       | intros ev Hev; by apply Hall, list_elem_of_further | done].
    rewrite Hw1, Hwin1, Hfin. cbn [fmap list_fmap]. simpl snd.
    set (A := window d src ++ [now]).
    replace (window d src ++ now :: now2 :: evs.*2) with (A ++ now2 :: evs.*2)
      by (unfold A; by rewrite <- app_assoc).
    rewrite (filter_app _ (filter _ A)), (filter_app _ A). f_equal.
    rewrite list_filter_filter. apply list_filter_iff. intros ts. lia.
Qed.

End WindowOverRun.

(** Three packets at 1, 5 and 14 with a 10s window: at 14 the first one is
    out of the window. *)
Lemma X27_window_witness :
  let d := init 100 10 false None in
  let src := "10.0.0.1"%string in
  let evs := [(udp_pkt src, 5); (syn_pkt src, 14)] in
  window (process_all always_ok never_private false d ((udp_pkt src, 1) :: evs)) src
  = filter (λ ts, final_time 1 (evs.*2) - ts ≤ time_window d) (window d src ++ 1 :: evs.*2).
Proof.
  intros d src evs.
  apply (X27_window_over_a_run always_ok never_private false d src (udp_pkt src) 1 evs).
  - reflexivity.
  - apply not_elem_of_empty.
  - reflexivity.
  - reflexivity.
  - intros ev Hev. unfold evs in Hev.
    apply elem_of_cons in Hev as [-> | Hev]; [reflexivity|].
    apply elem_of_cons in Hev as [-> | Hev]; [reflexivity|].
    by apply elem_of_nil in Hev.
  - simpl. repeat constructor; lia.
Defined.

(** ** A blocked source stays out *)

Section BlockedStaysOut.

Context (_is_private_ip : string → bool) (PROCESS_PRIVATE_IPS : bool).

(** A turn of the processor takes no source out of the blocked set,
    whatever the firewall answers. *)
Lemma process_packet_keeps_blocked (ok : Call → bool) d p now t ip :
  ip ∈ blocked_ips d →
  ip ∈ blocked_ips (process_packet ok _is_private_ip PROCESS_PRIVATE_IPS d p now t).1.
Proof.
  intros Hin.
  destruct (process_packet_cases ok _is_private_ip PROCESS_PRIVATE_IPS d p now t)
    as [-> | [_ ->]]; [done|].
  destruct (recorded_config d p now) as (_ & _ & Hbl).
  unfold _check_thresholds.
  pose proof (threshold_decision_frame (recorded d p now) (ip_src p) now)
    as (_ & _ & _ & _ & _ & Hbl1 & _).
  destruct (threshold_decision (recorded d p now) (ip_src p) now) as [[[count ty]|] d1];
    simpl in Hbl1; simpl; [|by rewrite Hbl1, Hbl].
  destruct (recently_alerted d1 (ip_src p) t) eqn:Hrec.
  - rewrite (trigger_suppressed ok d1 _ count ty t Hrec). simpl. by rewrite Hbl1, Hbl.
  - destruct (trigger_alert_outside ok d1 (ip_src p) count ty t Hrec) as [_ ->].
    rewrite Hbl1, Hbl. destruct (_ && _); [by apply elem_of_union_r | done].
Qed.

(** Neither the processor nor the maintenance loop unblocks a source. *)
Lemma evolves_keeps_blocked d0 d ip :
  evolves _is_private_ip PROCESS_PRIVATE_IPS d0 d →
  ip ∈ blocked_ips d0 → ip ∈ blocked_ips d.
Proof.
  intros Hev Hin. induction Hev as [|ok d p now t _ IH|d now _ IH]; [done| |].
  - by apply process_packet_keeps_blocked.
  - unfold maintenance_sweep.
    by destruct (sweep_keys_frame now (tracked_keys d) d) as (_ & _ & _ & _ & -> & _).
Qed.

(** X4. Once an alert has fired with enforcement on and the add-rule
    command succeeded, the source stays in the blocked set through all later
    turns of the processor, for packets of any source, and all maintenance
    sweeps, whatever the firewall answers then; and in every such later
    state a packet of that source is dropped by the processor before
    anything is recorded: detector unchanged, no call. *)
Theorem X4_blocked_source_is_ignored (netsh_ok : Call → bool)
        (d : DoSDetector) (src : string) (count : Z) (ty : AttackType) (t : Z)
        (d2 : DoSDetector) (later_ok : Call → bool) (p : Packet) (now' t' : Z) :
  recently_alerted d src t = false →
  block_ips d = true →
  netsh_ok (NetshAddRule src) = true →
  evolves _is_private_ip PROCESS_PRIVATE_IPS (_trigger_alert netsh_ok d src count ty t).1 d2 →
  ip_src p = src →
  src ∈ blocked_ips d2 ∧
  process_packet later_ok _is_private_ip PROCESS_PRIVATE_IPS d2 p now' t' = (d2, []).
Proof.
  intros Hrec Hblk Hok Hev Hsrc.
  destruct (trigger_alert_outside netsh_ok d src count ty t Hrec) as [_ Hb].
  rewrite Hblk, Hok in Hb. simpl in Hb.
  assert (Hin : src ∈ blocked_ips d2).
  { apply (evolves_keeps_blocked _ _ _ Hev). rewrite Hb.
    apply elem_of_union_l. by apply elem_of_singleton. }
  split; [done|]. unfold process_packet. rewrite Hsrc.
  destruct (_ && _); [done|]. by rewrite decide_True.
Qed.

End BlockedStaysOut.

(** After the alert that blocks ["10.0.0.7"], a packet of another source is
    processed (the firewall now refusing everything) and a sweep runs; a
    packet of ["10.0.0.7"] is still dropped. *)
Lemma X4_blocked_source_witness :
  let d1 := (_trigger_alert always_ok d_alerted "10.0.0.7" 9 SynFlood 119).1 in
  let d2 := maintenance_sweep
              (process_packet (λ _, false) never_private false d1
                 (udp_pkt "10.0.0.6") 121 121).1 125 in
  "10.0.0.7"%string ∈ blocked_ips d2 ∧
  process_packet always_ok never_private false d2 (syn_pkt "10.0.0.7") 130 130 = (d2, []).
Proof.
  intros d1 d2.
  apply (X4_blocked_source_is_ignored never_private false always_ok
           d_alerted "10.0.0.7" 9 SynFlood 119 d2 always_ok (syn_pkt "10.0.0.7") 130 130).
  - vm_compute. reflexivity.
  - reflexivity.
  - reflexivity.
  - unfold d2. apply evolves_sweep, evolves_packet, evolves_start.
  - reflexivity.
Defined.
